(** * users: account creation, session tokens and email verification

    A shallow embedding of [users/users.go] (package [users] of
    alesr/stdservices) and of the parts of its libraries that decide what
    the service returns: [errors], [fmt.Errorf], [encoding/json] on the
    claim struct, and [github.com/golang-jwt/jwt] (v3) [Parse].

    Conventions.
    - A Go method on [*DefaultService] is a function of the service record
      and of the world it runs in; the world is passed explicitly and
      returned, see [M].
    - [time.Time] is an instant, in nanoseconds since the Unix epoch.
    - The [context.Context] argument carries no data the code reads and is
      left out. *)

From Stdlib Require Import ZArith String Ascii Lia.
From stdpp Require Import base option gmap strings list.

Open Scope Z_scope.
Open Scope string_scope.

(** ** Errors *)

(** Modelled from the spec: the package-level error variables, which are
    declared outside [users.go] (those of package [users] in a file next to
    it, [ErrDuplicateRecord] in package [repository]).  Section 7 lists
    them as distinct kinds; each is one error value, compared by
    identity. *)
Inductive sentinel : Set :=
| errAlreadyExists
| errNotFound
| errPasswordInvalid
| errRoleInvalid
| errTokenEmpty
| errTokenInvalid
| errTokenExpired
| ErrDuplicateRecord.

#[global] Instance sentinel_eq_dec : EqDecision sentinel.
Proof. solve_decision. Defined.

(** The verb under which [fmt.Errorf] formats its error operand: [%s]
    prints its text, [%w] also keeps it as the cause. *)
Inductive verb : Set := verb_s | verb_w.

(** Go [error] values.
    - [ErrVar v]: a package-level variable;
    - [ErrText msg]: a fresh value that only has a text ([errors.New] at the
      place of use, [fmt.Errorf] without an error operand, a library's
      error);
    - [Errorf prefix vb arg]: [fmt.Errorf(prefix + "%s", arg)] or
      [fmt.Errorf(prefix + "%w", arg)];
    - [ValidationError inner flags]: a [*jwt.ValidationError] that is
      returned to the caller; [inner] gives its text (the [Inner] error, or
      the text [NewValidationError] was given), [flags] is its [Errors]
      bit field. *)
Inductive error : Type :=
| ErrVar (v : sentinel)
| ErrText (msg : string)
| Errorf (prefix : string) (vb : verb) (arg : error)
| ValidationError (Inner : error) (Errors : N).

Coercion ErrVar : sentinel >-> error.

(** [errors.Is(err, target)] for a package-level [target]: follow the chain
    of causes.  Only [%w] leaves a cause behind; [*jwt.ValidationError] of
    jwt v3 has no [Unwrap]. *)
Fixpoint errors_Is (err : error) (target : sentinel) : bool :=
  match err with
  | ErrVar v => bool_decide (v = target)
  | ErrText _ => false
  | Errorf _ verb_w arg => errors_Is arg target
  | Errorf _ verb_s _ => false
  | ValidationError _ _ => false
  end.

(** ** Time *)

Definition Time := Z.
Definition Duration := Z.

Definition Nanosecond : Duration := 1.
Definition Second : Duration := 1000000000.
Definition Hour : Duration := 3600 * Second.

(** [t.Add(d)] *)
Definition Time_Add (t : Time) (d : Duration) : Time := t + d.
(** [t.Unix()]: whole seconds since the epoch. *)
Definition Time_Unix (t : Time) : Z := t `div` Second.
(** [time.Unix(sec, nsec)] *)
Definition time_Unix (sec nsec : Z) : Time := sec * Second + nsec.
(** [t.Before(u)] *)
Definition Time_Before (t u : Time) : bool := bool_decide (t < u)%Z.
(** [t.UTC()] changes the location a time is printed in, not the instant. *)
Definition Time_UTC (t : Time) : Time := t.

(** ** Storage records (package [repository]) *)

Module repository.

(** [repository.User], with the fields [Create] fills in. *)
Record User : Type := mkUser {
  ID : string;
  Fullname : string;
  Username : string;
  Birthdate : Time;
  Email : string;
  EmailVerified : bool;
  PasswordHash : string;
  Role : string;
  CreatedAt : Time;
  UpdatedAt : Time
}.

(** [repository.EmailVerification] *)
Record EmailVerification : Type := mkEmailVerification {
  Code : string;
  UserID : string;
  EVCreatedAt : Time;
  ExpiresAt : Time
}.

End repository.

(** ** Domain records (package [users]) *)

(** [type role string] with its two constants. *)
Definition role := string.
Definition RoleUser : role := "user".
Definition RoleAdmin : role := "admin".

(** Modelled from the spec: [role.validate], declared outside [users.go].
    Section 4.3: "validates ... role membership in {user, admin}".  The
    error it returns is dropped by its only caller, [generateJWT]. *)
Definition role_validate (r : role) : option error :=
  if bool_decide (r = RoleUser) || bool_decide (r = RoleAdmin)
  then None else Some (ErrText "invalid role").

Record User : Type := mkUser {
  ID : string;
  Fullname : string;
  Username : string;
  Birthdate : Time;
  Email : string;
  EmailVerified : bool;
  Role : role;
  CreatedAt : Time;
  UpdatedAt : Time
}.

(** [CreateUserInput], with the fields [Create] reads. *)
Record CreateUserInput : Type := mkCreateUserInput {
  inFullname : string;
  inUsername : string;
  inBirthdate : Time;
  inEmail : string;
  inPassword : string
}.

Record VerifyTokenResponse : Type := mkVerifyTokenResponse {
  respID : string;
  respUsername : string;
  respRole : string
}.

(** ** Outcomes and the world *)

(** What a call ends in: a value with a nil error, a non-nil error, or a
    run-time panic (a nil dereference, an index out of range). *)
Inductive outcome (A : Type) : Type :=
| Ret (a : A)
| Fail (e : error)
| Panic.
Arguments Ret {A} a.
Arguments Fail {A} e.
Arguments Panic {A}.

(** The world a call runs in: the state behind the repository, the state
    behind the mail transport, and the state of the process (its clock, its
    random sources, its log).  The three are apart: a call into one leaves
    the other two as they are. *)
Record World (R T P : Type) : Type := mkWorld {
  store : R;
  transport : T;
  proc : P
}.
Arguments mkWorld {R T P}.
Arguments store {R T P}.
Arguments transport {R T P}.
Arguments proc {R T P}.

(** ** JSON values and token strings *)

(** A decoded JSON value, as [encoding/json] stores it in an
    [interface{}].  A number is a [float64]; the program and the jwt library
    read a numeric claim only through [int64(...)], and [JNumber n] is the
    number whose conversion is [n].  Arrays and objects are never looked
    into. *)
Inductive jvalue : Type :=
| JString (s : string)
| JNumber (n : Z)
| JBool (b : bool)
| JNull
| JOther.

#[global] Instance jvalue_eq_dec : EqDecision jvalue.
Proof. solve_decision. Defined.

(** A token string, seen through the segments it decodes to (the base64url
    and JSON text of a segment is not modelled):
    - [Empty]: the empty string;
    - [Garbled why]: a string that is not three segments that decode, with
      the library's message;
    - [Compact header claims signature]: three segments, the first two
      decoding to JSON objects. *)
Inductive tokenString : Type :=
| Empty
| Garbled (why : string)
| Compact (header claims : gmap string jvalue) (signature : string).

(** ** Collaborators

    The two interfaces of [users.go], [repo] and [emailer], and what the
    code takes from the process it runs in.  Each operation is a function
    of the state behind it. *)

(** [repo].  A call returns a pointer and an error; the code reads the
    error first, so a result is the error, or the pointer ([None] is
    [nil]). *)
Record repo (R : Type) : Type := mkRepo {
  Insert : repository.User → R → (error + option repository.User) * R;
  SelectByID : string → R → (error + option repository.User) * R;
  SelectByEmail : string → R → (error + option repository.User) * R;
  DeleteByID : string → R → option error * R;
  InsertEmailVerification : repository.EmailVerification → R → option error * R
}.
Arguments Insert {R}.
Arguments SelectByID {R}.
Arguments SelectByEmail {R}.
Arguments DeleteByID {R}.
Arguments InsertEmailVerification {R}.

(** [emailer]: [Send(from, to, body)]. *)
Record emailer (T : Type) : Type := mkEmailer {
  Send : string → string → string → T → option error * T
}.
Arguments Send {T}.

(** The process: [time.Now], [uuid.NewString], [seededRand.Intn],
    [bcrypt.GenerateFromPassword] at [bcrypt.DefaultCost] (it draws a salt)
    and the logger's [Error].  [Intn_range] is the contract of
    [Intn] of [math/rand]: a value from 0 up to n - 1. *)
Class Process (P : Type) : Type := {
  time_Now : P → Time * P;
  uuid_NewString : P → string * P;
  seededRand_Intn : Z → P → Z * P;
  Intn_range : ∀ n p, (0 < n)%Z → (0 ≤ (seededRand_Intn n p).1 < n)%Z;
  bcrypt_GenerateFromPassword : string → P → (error + string) * P;
  logger_Error : string → string → error → P → P
}.

(** The pure functions [users.go] calls and does not define, taken as
    parameters: the validators of [pkg/validate] and
    [CreateUserInput.validate] ([None] is a nil error),
    [bcrypt.CompareHashAndPassword], the HMAC of the three [HS*] signing
    methods over a token's first two segments, and [path.Join] of two
    elements. *)
Class Pure : Type := {
  validate_ID : string → option error;
  validate_Email : string → option error;
  validate_Password : string → option error;
  CreateUserInput_validate : CreateUserInput → option error;
  bcrypt_CompareHashAndPassword : string → string → option error;
  HMAC : string → string → gmap string jvalue * gmap string jvalue → string;
  path_Join : string → string → string
}.

(** ** The monad of calls *)

Section Calls.
Context {R T P : Type}.

(** A call: from the world to an outcome and the world it leaves. *)
Definition M (A : Type) : Type := World R T P → outcome A * World R T P.

Definition ret {A} (a : A) : M A := λ w, (Ret a, w).
Definition fail {A} (e : error) : M A := λ w, (Fail e, w).
Definition panic {A} : M A := λ w, (Panic, w).

Definition bind {A B} (m : M A) (k : A → M B) : M B := λ w,
  match m w with
  | (Ret a, w') => k a w'
  | (Fail e, w') => (Fail e, w')
  | (Panic, w') => (Panic, w')
  end.

(** [if err != nil { return ..., f(err) }] after a call. *)
Definition on_err {A} (m : M A) (f : error → error) : M A := λ w,
  match m w with
  | (Fail e, w') => (Fail (f e), w')
  | r => r
  end.

(** [if err := m; err != nil { h(err) }] with no return: the call's error
    is handled and the caller goes on. *)
Definition handled (m : M unit) (h : error → M unit) : M unit := λ w,
  match m w with
  | (Fail e, w') => h e w'
  | r => r
  end.

(** A call that leaves the world as it is. *)
Definition pure_call {A} (r : outcome A) : M A := λ w, (r, w).

(** A pure check: [None] is a nil error. *)
Definition check (r : option error) : M unit :=
  match r with
  | None => ret tt
  | Some e => fail e
  end.

Definition of_sum {A} (r : error + A) : outcome A :=
  match r with
  | inl e => Fail e
  | inr a => Ret a
  end.

Definition of_opt (r : option error) : outcome unit :=
  match r with
  | Some e => Fail e
  | None => Ret tt
  end.

(** Calls into the three parts of the world: the repository, the mail
    transport, the process. *)
Definition try_store {A} (f : R → (error + A) * R) : M A := λ w,
  let '(r, st) := f (store w) in
  (of_sum r, mkWorld st (transport w) (proc w)).
Definition do_store (f : R → option error * R) : M unit := λ w,
  let '(r, st) := f (store w) in
  (of_opt r, mkWorld st (transport w) (proc w)).
Definition do_transport (f : T → option error * T) : M unit := λ w,
  let '(r, tr) := f (transport w) in
  (of_opt r, mkWorld (store w) tr (proc w)).
Definition call_proc {A} (f : P → A * P) : M A := λ w,
  let '(a, p) := f (proc w) in
  (Ret a, mkWorld (store w) (transport w) p).
Definition try_proc {A} (f : P → (error + A) * P) : M A := λ w,
  let '(r, p) := f (proc w) in
  (of_sum r, mkWorld (store w) (transport w) p).
Definition tell_proc (f : P → P) : M unit := λ w,
  (Ret tt, mkWorld (store w) (transport w) (f (proc w))).

End Calls.

Declare Scope go_scope.
Delimit Scope go_scope with go.
Notation "'let*' x ':=' m 'in' k" := (bind m (λ x, k))
  (at level 10, x binder, m at level 100, k at level 200,
   format "'[v' 'let*'  x  :=  m  'in'  '/' k ']'") : go_scope.
Notation "m 'orelse' f" := (on_err m f) (at level 60) : go_scope.
Open Scope go_scope.

(** ** The jwt library (github.com/golang-jwt/jwt, v3) *)

Module jwt.

(** [*SigningMethodHMAC] and the other registered methods (RSA, RSA-PSS,
    ECDSA, Ed25519, none), which are values of other Go types. *)
Inductive SigningMethod : Type :=
| SigningMethodHMAC (Name : string)
| SigningMethodOther (Name : string).

Definition Alg (m : SigningMethod) : string :=
  match m with
  | SigningMethodHMAC n => n
  | SigningMethodOther n => n
  end.

Definition SigningMethodHS512 : SigningMethod := SigningMethodHMAC "HS512".

(** [GetSigningMethod]: the methods the library registers. *)
Definition GetSigningMethod (alg : string) : option SigningMethod :=
  if bool_decide (alg ∈ ["HS256"; "HS384"; "HS512"])
  then Some (SigningMethodHMAC alg)
  else if bool_decide (alg ∈ ["RS256"; "RS384"; "RS512";
                              "PS256"; "PS384"; "PS512";
                              "ES256"; "ES384"; "ES512";
                              "EdDSA"; "none"])
  then Some (SigningMethodOther alg)
  else None.

Record Token : Type := mkToken {
  Method : SigningMethod;
  Header : gmap string jvalue;
  Claims : gmap string jvalue;
  Signature : string;
  Valid : bool
}.

(** The bits of [ValidationError.Errors]. *)
Definition ValidationErrorMalformed : N := 1.
Definition ValidationErrorUnverifiable : N := 2.
Definition ValidationErrorSignatureInvalid : N := 4.
Definition ValidationErrorExpired : N := 16.
Definition ValidationErrorIssuedAt : N := 32.
Definition ValidationErrorNotValidYet : N := 128.

Definition NewValidationError (errorText : string) (errorFlags : N) : error :=
  ValidationError (ErrText errorText) errorFlags.

Definition ErrSignatureInvalid : error := ErrText "signature is invalid".
Definition ErrInvalidKeyType : error := ErrText "key is of invalid type".
Definition NoneSignatureTypeDisallowedError : error :=
  NewValidationError "'none' signature type is not allowed"
                     ValidationErrorSignatureInvalid.

(** [StandardClaims], with its JSON tags:
    aud, exp, jti, iat, iss, nbf, sub, each [omitempty]. *)
Record StandardClaims : Type := mkStandardClaims {
  Audience : string;
  ExpiresAt : Z;
  Id : string;
  IssuedAt : Z;
  Issuer : string;
  NotBefore : Z;
  Subject : string
}.

Definition omitempty_string (key v : string) (m : gmap string jvalue)
  : gmap string jvalue :=
  if bool_decide (v = "") then m else <[key := JString v]> m.

Definition omitempty_int64 (key : string) (v : Z) (m : gmap string jvalue)
  : gmap string jvalue :=
  if bool_decide (v = 0) then m else <[key := JNumber v]> m.

(** [json.Marshal] of a [StandardClaims], decoded again. *)
Definition StandardClaims_json (c : StandardClaims) : gmap string jvalue :=
  omitempty_string "aud" (Audience c)
    (omitempty_int64 "exp" (ExpiresAt c)
      (omitempty_string "jti" (Id c)
        (omitempty_int64 "iat" (IssuedAt c)
          (omitempty_string "iss" (Issuer c)
            (omitempty_int64 "nbf" (NotBefore c)
              (omitempty_string "sub" (Subject c) ∅)))))).

Definition verifyExp (exp now : Z) (required : bool) : bool :=
  if bool_decide (exp = 0) then negb required else bool_decide (now ≤ exp)%Z.

Definition verifyIat (iat now : Z) (required : bool) : bool :=
  if bool_decide (iat = 0) then negb required else bool_decide (now >= iat)%Z.

Definition verifyNbf (nbf now : Z) (required : bool) : bool :=
  if bool_decide (nbf = 0) then negb required else bool_decide (now >= nbf)%Z.

(** [MapClaims.VerifyExpiresAt], [VerifyIssuedAt], [VerifyNotBefore]: a
    claim that is absent passes unless required; one that is not a number
    fails. *)
Definition verifyClaim (vf : Z → Z → bool → bool) (key : string)
    (m : gmap string jvalue) (cmp : Z) (req : bool) : bool :=
  match m !! key with
  | None => negb req
  | Some (JNumber v) => vf v cmp req
  | Some _ => false
  end.

Definition VerifyExpiresAt := verifyClaim verifyExp "exp".
Definition VerifyIssuedAt := verifyClaim verifyIat "iat".
Definition VerifyNotBefore := verifyClaim verifyNbf "nbf".

(** The [ValidationError] under construction: its [Inner] error (the
    text of an empty one is "token is invalid") and its [Errors]. *)
Definition vErr0 : error * N := (ErrText "token is invalid", 0%N).

Definition flag (ok : bool) (inner : string) (bit : N) (v : error * N)
  : error * N :=
  if ok then v else (ErrText inner, N.lor v.2 bit).

(** [MapClaims.Valid] at [now = TimeFunc().Unix()]. *)
Definition MapClaims_Valid (m : gmap string jvalue) (now : Z) : error * N :=
  flag (VerifyNotBefore m now false) "Token is not valid yet"
       ValidationErrorNotValidYet
    (flag (VerifyIssuedAt m now false) "Token used before issued"
          ValidationErrorIssuedAt
      (flag (VerifyExpiresAt m now false) "Token is expired"
            ValidationErrorExpired vErr0)).

(** [Parser.ParseUnverified] into [MapClaims]. *)
Definition ParseUnverified (tokenString : tokenString) : error + Token :=
  match tokenString with
  | Empty =>
      inl (NewValidationError "token contains an invalid number of segments"
                              ValidationErrorMalformed)
  | Garbled why => inl (NewValidationError why ValidationErrorMalformed)
  | Compact header claims signature =>
      match header !! "alg" with
      | Some (JString method) =>
          match GetSigningMethod method with
          | Some m => inr (mkToken m header claims signature false)
          | None =>
              inl (NewValidationError "signing method (alg) is unavailable."
                                      ValidationErrorUnverifiable)
          end
      | _ =>
          inl (NewValidationError "signing method (alg) is unspecified."
                                  ValidationErrorUnverifiable)
      end
  end.

Section WithWorld.
Context {R T P : Type} `{Process P} `{Pure}.

(** [Method.Verify(signingString, signature, key)] with a [[]byte] key,
    the only kind of key [users.go] hands out. *)
Definition Verify (m : SigningMethod)
    (signingString : gmap string jvalue * gmap string jvalue)
    (signature key : string) : option error :=
  match m with
  | SigningMethodHMAC alg =>
      if bool_decide (HMAC alg key signingString = signature)
      then None else Some ErrSignatureInvalid
  | SigningMethodOther alg =>
      if bool_decide (alg = "none")
      then Some NoneSignatureTypeDisallowedError
      else Some ErrInvalidKeyType
  end.

(** [jwt.Parse(tokenString, keyFunc)]: decode, ask [keyFunc] for the
    key, validate the claims against the clock, check the signature. *)
Definition Parse (tokenString : tokenString)
    (keyFunc : Token → error + string) : M (R:=R) (T:=T) (P:=P) Token :=
  match ParseUnverified tokenString with
  | inl e => fail e
  | inr token =>
      match keyFunc token with
      | inl (ValidationError i f) => fail (ValidationError i f)
      | inl err => fail (ValidationError err ValidationErrorUnverifiable)
      | inr key =>
          let* now := call_proc time_Now in
          let v := MapClaims_Valid (Claims token) (Time_Unix now) in
          let v :=
            match Verify (Method token) (Header token, Claims token)
                         (Signature token) key with
            | Some err => (err, N.lor v.2 ValidationErrorSignatureInvalid)
            | None => v
            end in
          if bool_decide (v.2 = 0%N)
          then ret (mkToken (Method token) (Header token) (Claims token)
                            (Signature token) true)
          else fail (ValidationError v.1 v.2)
      end
  end.

(** [NewWithClaims(method, claims).SignedString(key)] with a [[]byte]
    key; [claims] is what [json.Marshal] writes for the claims value. *)
Definition SignedString (method : SigningMethod)
    (claims : gmap string jvalue) (key : string) : error + tokenString :=
  let header : gmap string jvalue :=
    <["typ" := JString "JWT"]> (<["alg" := JString (Alg method)]> ∅) in
  match method with
  | SigningMethodHMAC alg =>
      inr (Compact header claims (HMAC alg key (header, claims)))
  | SigningMethodOther _ => inl ErrInvalidKeyType
  end.

End WithWorld.

End jwt.

(** ** The service *)

(** [jwtSigningMethod = jwt.SigningMethodHS512] *)
Definition jwtSigningMethod : jwt.SigningMethod := jwt.SigningMethodHS512.

(** The header [SignedString] writes for HS512. *)
Definition HS512_header : gmap string jvalue :=
  <["typ" := JString "JWT"]> (<["alg" := JString "HS512"]> ∅).

(** [jwtClaim]: two unexported fields and an embedded
    [jwt.StandardClaims]. *)
Record jwtClaim : Type := mkJwtClaim {
  claim_id : string;
  claim_role : string;
  claim_StandardClaims : jwt.StandardClaims
}.

(** [json.Marshal] of a [jwtClaim], decoded again.  [encoding/json] writes
    the exported fields of a struct and, for an embedded struct of an
    exported type, that struct's exported fields under their own tags; it
    skips unexported fields, here [id] and [role]. *)
Definition jwtClaim_json (c : jwtClaim) : gmap string jvalue :=
  jwt.StandardClaims_json (claim_StandardClaims c).

(** [DefaultService].  The logger is part of the process; [s_emailer] is
    [None] when no [WithEmailVerification] option was given (a nil
    interface). *)
Record DefaultService (R T : Type) : Type := mkService {
  jwtSigningKey : string;
  emailVerificationSenderName : string;
  emailVerificationSenderAddr : string;
  emailVerificationEndpoint : string;
  s_emailer : option (emailer T);
  s_repo : repo R
}.
Arguments mkService {R T}.
Arguments jwtSigningKey {R T}.
Arguments emailVerificationSenderName {R T}.
Arguments emailVerificationSenderAddr {R T}.
Arguments emailVerificationEndpoint {R T}.
Arguments s_emailer {R T}.
Arguments s_repo {R T}.

Definition WithEmailVerification {R T} (fromName fromAddr endpoint : string)
    (em : option (emailer T)) (s : DefaultService R T) : DefaultService R T :=
  mkService (jwtSigningKey s) fromName fromAddr endpoint em (s_repo s).

Definition New {R T} (jwtSigningKey : string) (rp : repo R)
    (opts : list (DefaultService R T → DefaultService R T))
    : DefaultService R T :=
  foldl (λ service opt, opt service)
        (mkService jwtSigningKey "" "" "" None rp) opts.

Definition chars : string := "abcdefghijklmnopqrstuvwxyz0123456789".

(** [chars[k]]: an index outside the string panics. *)
Definition chars_at (k : Z) : option ascii :=
  if bool_decide (0 ≤ k)%Z then String.get (Z.to_nat k) chars else None.

(** A lowercase letter or a digit. *)
Definition lower_alnum (c : ascii) : bool :=
  let n := nat_of_ascii c in
  ((97 <=? n)%nat && (n <=? 122)%nat) || ((48 <=? n)%nat && (n <=? 57)%nat).

Definition CRLF : string := String "013" (String "010" "").

(** [newUserFromRepository]; a nil pointer panics at [user.Role]. *)
Definition newUserFromRepository (user : option repository.User)
    : outcome User :=
  match user with
  | None => Panic
  | Some user =>
      if bool_decide (repository.Role user = "user") then
        Ret (mkUser (repository.ID user) (repository.Fullname user)
               (repository.Username user) (repository.Birthdate user)
               (repository.Email user) (repository.EmailVerified user)
               RoleUser
               (repository.CreatedAt user) (repository.UpdatedAt user))
      else if bool_decide (repository.Role user = "admin") then
        Ret (mkUser (repository.ID user) (repository.Fullname user)
               (repository.Username user) (repository.Birthdate user)
               (repository.Email user) (repository.EmailVerified user)
               RoleAdmin
               (repository.CreatedAt user) (repository.UpdatedAt user))
      else Fail (ErrText ("invalid role: " +:+ repository.Role user))
  end.

Section Service.
Context {R T P : Type} `{Process P} `{Pure}.

Local Abbreviation M := (M (R:=R) (T:=T) (P:=P)).
Local Abbreviation DefaultService := (DefaultService R T).

Definition now : M Time := call_proc time_Now.

(** [randString]: [length] bytes, each [chars[seededRand.Intn(len(chars))]],
    drawn from the first to the last. *)
Fixpoint randString (length : nat) : M string :=
  match length with
  | O => ret ""
  | S n =>
      let* k := call_proc (seededRand_Intn (Z.of_nat (String.length chars))) in
      match chars_at k with
      | None => panic
      | Some c =>
          let* rest := randString n in
          ret (String c rest)
      end
  end.

(** The [fmt.Sprintf] of [SendEmailVerification]. *)
Definition verification_body (s : DefaultService) (to code : string) : string :=
  "From: " +:+ emailVerificationSenderAddr s +:+ CRLF +:+
  "To: " +:+ to +:+ CRLF +:+
  "Subject: " +:+ emailVerificationSenderName s +:+
  " Email Verification" +:+ CRLF +:+ CRLF +:+
  "Please click the following link to verify your email address: " +:+
  path_Join (emailVerificationEndpoint s) code +:+ CRLF.

Definition SendEmailVerification (s : DefaultService)
    (userID username to : string) : M unit :=
  let* code := randString 6 in
  let* createdAt := now in
  let* expiresAt := now in
  let in_ := repository.mkEmailVerification code userID
               (Time_UTC createdAt)
               (Time_Add (Time_UTC expiresAt) (Hour * 24)) in
  let* _ := do_store (InsertEmailVerification (s_repo s) in_)
              orelse Errorf "could not insert email verification: " verb_s in
  let body := verification_body s to code in
  match s_emailer s with
  | None => panic
  | Some em =>
      do_transport (Send em (emailVerificationSenderName s) to body)
        orelse Errorf "could not send email verification: " verb_s
  end.

(** The [repository.User] literal of [Create]. *)
Definition storageUser (in_ : CreateUserInput) (id hash : string)
    (createdAt updatedAt : Time) : repository.User :=
  repository.mkUser id (inFullname in_) (inUsername in_) (inBirthdate in_)
    (inEmail in_) false hash RoleUser createdAt updatedAt.

Definition Create (s : DefaultService) (in_ : CreateUserInput) : M User :=
  let* _ := check (CreateUserInput_validate in_)
              orelse Errorf "could not validate create user input: " verb_w in
  let* hash := try_proc (bcrypt_GenerateFromPassword (inPassword in_))
                 orelse Errorf "could not hash password: " verb_s in
  let* id := call_proc uuid_NewString in
  let* createdAt := now in
  let* updatedAt := now in
  let* insertedUser :=
    try_store (Insert (s_repo s)
                 (storageUser in_ id hash createdAt updatedAt))
      orelse (λ err, if errors_Is err ErrDuplicateRecord
                     then ErrVar errAlreadyExists
                     else Errorf "could not insert user: " verb_s err) in
  let* user := pure_call (newUserFromRepository insertedUser)
                 orelse Errorf "could not parse storage user to domain model: " verb_s in
  let* _ :=
    match s_emailer s with
    | Some _ =>
        handled (SendEmailVerification s (ID user) (Username user) (Email user))
                (λ err, tell_proc (logger_Error "could not send email verification"
                                                (ID user) err))
    | None => ret tt
    end in
  ret user.

(** What [Create] does once the record is stored; the tail of [Create],
    named to state what the earlier steps lead to. *)
Definition after_Insert (s : DefaultService) (insertedUser : option repository.User)
    : M User :=
  let* user := pure_call (newUserFromRepository insertedUser)
                 orelse Errorf "could not parse storage user to domain model: " verb_s in
  let* _ :=
    match s_emailer s with
    | Some _ =>
        handled (SendEmailVerification s (ID user) (Username user) (Email user))
                (λ err, tell_proc (logger_Error "could not send email verification"
                                                (ID user) err))
    | None => ret tt
    end in
  ret user.

Definition FetchByID (s : DefaultService) (id : string) : M User :=
  let* _ := check (validate_ID id)
              orelse Errorf "could not validate id: " verb_w in
  let* storageUser := try_store (SelectByID (s_repo s) id)
                        orelse Errorf "could not select user by id: " verb_s in
  match storageUser with
  | None => fail errNotFound
  | Some _ =>
      pure_call (newUserFromRepository storageUser)
        orelse Errorf "could not parse storage user to domain model: " verb_s
  end.

Definition Delete (s : DefaultService) (id : string) : M unit :=
  let* _ := check (validate_ID id)
              orelse Errorf "could not validate id: " verb_w in
  do_store (DeleteByID (s_repo s) id)
    orelse Errorf "could not delete user by id: " verb_s.

Definition generateJWT (s : DefaultService) (userID : string) (r : role)
    : M tokenString :=
  let* _ := check (validate_ID userID)
              orelse Errorf "could not validate id: " verb_w in
  let* _ := check (role_validate r) orelse (λ _, ErrVar errRoleInvalid) in
  let* t := now in
  let now := Time_UTC t in
  let claims :=
    mkJwtClaim userID r
      (jwt.mkStandardClaims "" (Time_Unix (Time_Add now (Hour * 24))) ""
                            (Time_Unix now) "" 0 "") in
  pure_call (of_sum (jwt.SignedString jwtSigningMethod (jwtClaim_json claims)
                                      (jwtSigningKey s)))
    orelse Errorf "could not sign token: " verb_s.

Definition GenerateToken (s : DefaultService) (email password : string)
    : M tokenString :=
  let* _ := check (validate_Email email)
              orelse Errorf "could not validate email: " verb_s in
  let* _ := check (validate_Password password)
              orelse Errorf "could not validate password: " verb_s in
  let* storageUser := try_store (SelectByEmail (s_repo s) email)
                        orelse Errorf "could not select user by email: " verb_s in
  match storageUser with
  | None => fail errNotFound
  | Some storageUser =>
      let* _ := check (bcrypt_CompareHashAndPassword
                         (repository.PasswordHash storageUser) password)
                  orelse (λ _, ErrVar errPasswordInvalid) in
      generateJWT s (repository.ID storageUser) (repository.Role storageUser)
        orelse Errorf "could not generate jwt: " verb_s
  end.

(** The key function [VerifyToken] hands to [jwt.Parse]. *)
Definition keyFunc (s : DefaultService) (token : jwt.Token) : error + string :=
  match jwt.Method token with
  | jwt.SigningMethodHMAC _ =>
      if bool_decide (jwt.Alg (jwt.Method token) ≠ jwt.Alg jwtSigningMethod)
      then inl (ErrText "invalid token signing method")
      else inr (jwtSigningKey s)
  | jwt.SigningMethodOther _ =>
      inl (ErrText ("unexpected signing method: " +:+
                    match jwt.Header token !! "alg" with
                    | Some (JString alg) => alg
                    | _ => "<nil>"
                    end))
  end.

Definition VerifyToken (s : DefaultService) (token : tokenString)
    : M VerifyTokenResponse :=
  match token with
  | Empty => fail errTokenEmpty
  | _ =>
      let* jwtToken := jwt.Parse token (keyFunc s)
                         orelse Errorf "could not parse token: " verb_s in
      let claims := jwt.Claims jwtToken in
      if negb (jwt.Valid jwtToken) then fail errTokenInvalid else
      match claims !! "user_id" with
      | Some (JString userID) =>
          match claims !! "role" with
          | Some (JString role) =>
              match claims !! "exp" with
              | Some (JNumber expiration) =>
                  let* t := now in
                  if Time_Before (time_Unix expiration 0) t
                  then fail errTokenExpired
                  else
                    let* storageUser :=
                      try_store (SelectByID (s_repo s) userID)
                        orelse Errorf "could not select user by id: " verb_s in
                    match storageUser with
                    | None => fail errNotFound
                    | Some storageUser =>
                        ret (mkVerifyTokenResponse
                               (repository.ID storageUser)
                               (repository.Username storageUser)
                               role)
                    end
              | _ => fail (ErrText "could not find expiration in token")
              end
          | _ => fail (ErrText "could not find role in token")
          end
      | _ => fail (ErrText "could not find user id in token")
      end
  end.

End Service.

(** ** An in-memory world

    A repository kept in two lists, a mail transport that is up or down, and
    a process with a clock that moves at each reading.  It instantiates the
    interfaces above, to run the service on concrete inputs. *)

Module InMemory.

Record Store : Type := mkStore {
  users : list repository.User;
  verifications : list repository.EmailVerification
}.

Definition byID (id : string) (u : repository.User) : bool :=
  bool_decide (repository.ID u = id).
Definition byEmail (email : string) (u : repository.User) : bool :=
  bool_decide (repository.Email u = email).

(** The email column is unique; a second insert reports the duplicate,
    wrapped. *)
Definition memRepo : repo Store :=
  mkRepo Store
    (λ u st,
       match List.find (byEmail (repository.Email u)) (users st) with
       | Some _ => (inl (Errorf "insert: " verb_w ErrDuplicateRecord), st)
       | None => (inr (Some u), mkStore (users st ++ [u]) (verifications st))
       end)
    (λ id st, (inr (List.find (byID id) (users st)), st))
    (λ email st, (inr (List.find (byEmail email) (users st)), st))
    (λ id st,
       (None, mkStore (List.filter (λ u, negb (byID id u)) (users st))
                      (verifications st)))
    (λ ev st, (None, mkStore (users st) (verifications st ++ [ev]))).

(** A repository whose storage is out of reach. *)
Definition downRepo : repo Store :=
  mkRepo Store
    (λ _ st, (inl (ErrText "connection refused"), st))
    (λ _ st, (inl (ErrText "connection refused"), st))
    (λ _ st, (inl (ErrText "connection refused"), st))
    (λ _ st, (Some (ErrText "connection refused"), st))
    (λ _ st, (Some (ErrText "connection refused"), st)).

Record Transport : Type := mkTransport {
  up : bool;
  outbox : list (string * string * string)
}.

Definition memEmailer : emailer Transport :=
  mkEmailer Transport
    (λ from to body tr,
       if up tr
       then (None, mkTransport true (outbox tr ++ [(from, to, body)]))
       else (Some (ErrText "smtp: connection refused"), tr)).

Record Proc : Type := mkProc {
  clock : Time;
  tick : Duration;
  fresh : list string;
  seed : Z;
  log : list (string * string * error)
}.

#[global, refine] Instance memProcess : Process Proc := {|
  time_Now p :=
    (clock p, mkProc (clock p + tick p) (tick p) (fresh p) (seed p) (log p));
  uuid_NewString p :=
    (hd "" (fresh p),
     mkProc (clock p) (tick p) (tl (fresh p)) (seed p) (log p));
  seededRand_Intn n p :=
    (seed p `mod` n,
     mkProc (clock p) (tick p) (fresh p)
            ((seed p * 1103515245 + 12345) `mod` 2147483648) (log p));
  bcrypt_GenerateFromPassword password p :=
    (if bool_decide (72 < String.length password)%nat
     then inl (ErrText "bcrypt: password length exceeds 72 bytes")
     else inr ("$2a$10$" +:+ password), p);
  logger_Error msg user_id err p :=
    mkProc (clock p) (tick p) (fresh p) (seed p)
           (log p ++ [(msg, user_id, err)])
|}.
Proof. intros n p Hn. simpl. apply Z.mod_pos_bound. exact Hn. Defined.

(** A number in binary digits, lowest first. *)
Fixpoint render_pos (p : positive) : string :=
  match p with
  | xH => "1"
  | xO q => String "0" (render_pos q)
  | xI q => String "1" (render_pos q)
  end.

Definition render (v : jvalue) : string :=
  match v with
  | JString s => s
  | JNumber (Zpos p) => render_pos p
  | JNumber Z0 => "0"
  | JNumber (Zneg p) => String "-" (render_pos p)
  | JBool b => if b then "true" else "false"
  | JNull => "null"
  | JOther => "?"
  end.

Definition render_object (m : gmap string jvalue) : string :=
  foldr (λ kv acc, kv.1 +:+ "=" +:+ render kv.2 +:+ ";" +:+ acc) ""
        (map_to_list m).

#[global] Instance memPure : Pure := {|
  validate_ID id :=
    if bool_decide (id = "") then Some (ErrText "id is empty") else None;
  validate_Email email :=
    if bool_decide (email = "") then Some (ErrText "email is empty") else None;
  validate_Password password :=
    if bool_decide (String.length password < 8)%nat
    then Some (ErrText "password is too short") else None;
  CreateUserInput_validate in_ :=
    if bool_decide (inEmail in_ = "") then Some (ErrText "email is empty")
    else if bool_decide (String.length (inPassword in_) < 8)%nat
    then Some (ErrText "password is too short") else None;
  bcrypt_CompareHashAndPassword hash password :=
    if bool_decide (hash = "$2a$10$" +:+ password) then None
    else Some (ErrText "bcrypt: hashedPassword is not the hash of the given password");
  HMAC alg key input :=
    alg +:+ "(" +:+ key +:+ "," +:+ render_object input.1 +:+ "." +:+
    render_object input.2 +:+ ")";
  path_Join a b := a +:+ "/" +:+ b
|}.

Definition svc : DefaultService Store Transport :=
  New "secret" memRepo
      [WithEmailVerification "stdservices" "noreply@example.com"
                             "/verify" (Some memEmailer)].

Definition svc_no_mail : DefaultService Store Transport :=
  New "secret" memRepo [].

Definition jane : repository.User :=
  repository.mkUser "7d444840-9dc0-11d1-b245-5ffdce74fad2" "Jane Doe"
    "janedoe" 631152000000000000 "jane@example.com" false
    "$2a$10$Str0ngPass!" "user"
    1700000000000000000 1700000000000000000.

Definition w0 : World Store Transport Proc :=
  mkWorld (mkStore [jane] []) (mkTransport true [])
          (mkProc 1700000100000000000 1
                  ["16fd2706-8baf-433b-82eb-8c7fada847da"] 42 []).

(** The same world with the mail transport down. *)
Definition w_down : World Store Transport Proc :=
  mkWorld (store w0) (mkTransport false []) (proc w0).

(** The world at instant [t] on a clock that stands still. *)
Definition w_at (t : Time) : World Store Transport Proc :=
  mkWorld (store w0) (transport w0) (mkProc t 0 [] 42 []).

Definition joe_in : CreateUserInput :=
  mkCreateUserInput "Joe Bloggs" "joe" 0 "joe@example.com" "hunter2hunter2".

Definition joe : User :=
  mkUser "16fd2706-8baf-433b-82eb-8c7fada847da" "Joe Bloggs" "joe" 0
         "joe@example.com" false RoleUser
         1700000100000000000 1700000100000000001.

(** A second account for Jane's address. *)
Definition jane_again : CreateUserInput :=
  mkCreateUserInput "Jane D." "jane2" 0 "jane@example.com" "An0therPass!".

(** Claims naming Jane, with a role and an expiry in seconds. *)
Definition claims_for_jane (role : string) (exp : Z) : gmap string jvalue :=
  <["user_id" := JString (repository.ID jane)]>
    (<["role" := JString role]> (<["exp" := JNumber exp]> ∅)).

(** A token over [claims], signed HS512 with the service's key. *)
Definition signed (claims : gmap string jvalue) : tokenString :=
  Compact HS512_header claims (HMAC "HS512" "secret" (HS512_header, claims)).

(** An unsigned token: algorithm "none", the same payload, no
    signature. *)
Definition unsigned (claims : gmap string jvalue) : tokenString :=
  Compact (<["typ" := JString "JWT"]> (<["alg" := JString "none"]> ∅))
          claims "".

(** A service whose repository is out of reach, with a mailer. *)
Definition svc_down : DefaultService Store Transport :=
  New "secret" downRepo
      [WithEmailVerification "stdservices" "noreply@example.com"
                             "/verify" (Some memEmailer)].

(** A repository that stores every new record under the role "root" and
    hands it back so. *)
Definition rootRepo : repo Store :=
  mkRepo Store
    (λ u st,
       let u' := repository.mkUser (repository.ID u) (repository.Fullname u)
                   (repository.Username u) (repository.Birthdate u)
                   (repository.Email u) (repository.EmailVerified u)
                   (repository.PasswordHash u) "root"
                   (repository.CreatedAt u) (repository.UpdatedAt u) in
       (inr (Some u'), mkStore (users st ++ [u']) (verifications st)))
    (SelectByID memRepo) (SelectByEmail memRepo) (DeleteByID memRepo)
    (InsertEmailVerification memRepo).

Definition svc_root : DefaultService Store Transport :=
  New "secret" rootRepo [].

(** A stored user whose role is neither of the two known ones. *)
Definition rudi : repository.User :=
  repository.mkUser "9b2e4f60-1c7a-4d55-8f0e-3a6d5c2b7e91" "Rudi Root"
    "rudi" 0 "rudi@example.com" true "$2a$10$R00tPassword" "root"
    1700000000000000000 1700000000000000000.

Definition w_rudi : World Store Transport Proc :=
  mkWorld (mkStore [jane; rudi] []) (transport w0) (proc w0).

(** An input without an address, and one whose password is longer than
    bcrypt takes. *)
Definition no_email_in : CreateUserInput :=
  mkCreateUserInput "Joe Bloggs" "joe" 0 "" "hunter2hunter2".

Definition long_password_in : CreateUserInput :=
  mkCreateUserInput "Joe Bloggs" "joe" 0 "joe@example.com"
    "0123456789012345678901234567890123456789012345678901234567890123456789012".

(** A token over [claims] whose signature was not made with the key. *)
Definition forged (claims : gmap string jvalue) : tokenString :=
  Compact HS512_header claims "forged".

(** Claims that name Jane and an expiry, and no role. *)
Definition claims_without_role : gmap string jvalue :=
  <["user_id" := JString (repository.ID jane)]>
    (<["exp" := JNumber 1700090000]> ∅).

End InMemory.

(** Open the sequencing of calls, to run them on the world at hand. *)
Ltac open_calls :=
  unfold bind, on_err, handled, check, ret, fail, panic, pure_call,
         try_store, do_store, do_transport, call_proc, try_proc, tell_proc.

(** Evaluate a call on a concrete world. *)
Ltac run := vm_compute; reflexivity.

(** The same, one goal after the other: each goal is evaluated once the
    goals before it have fixed what it depends on. *)
Ltac run_each := lazymatch goal with |- _ => vm_compute; reflexivity end.

(** ** Running a call step by step *)

Section Steps.
Context {R T P : Type}.
Local Abbreviation M := (M (R:=R) (T:=T) (P:=P)).

Lemma bind_Ret {A B} (m : M A) (k : A → M B) w a w' :
  m w = (Ret a, w') → bind m k w = k a w'.
Proof. unfold bind. intros ->. reflexivity. Qed.

Lemma bind_Fail {A B} (m : M A) (k : A → M B) w e w' :
  m w = (Fail e, w') → bind m k w = (Fail e, w').
Proof. unfold bind. intros ->. reflexivity. Qed.

Lemma on_err_Ret {A} (m : M A) f w a w' :
  m w = (Ret a, w') → on_err m f w = (Ret a, w').
Proof. unfold on_err. intros ->. reflexivity. Qed.

Lemma on_err_Fail {A} (m : M A) f w e w' :
  m w = (Fail e, w') → on_err m f w = (Fail (f e), w').
Proof. unfold on_err. intros ->. reflexivity. Qed.

End Steps.

Section CreateFacts.
Context {R T P : Type} `{Process P} `{Pure}.
Implicit Types (s : DefaultService R T) (w : World R T P).

(** [Create] up to the repository's answer: a valid input whose password
    hashes reaches [Insert] with the record built from it, in the store
    the call started in. *)
Lemma Create_reaches_Insert s in_ w hash p1 id p2 t1 p3 t2 p4 r st :
  CreateUserInput_validate in_ = None →
  bcrypt_GenerateFromPassword (inPassword in_) (proc w) = (inr hash, p1) →
  uuid_NewString p1 = (id, p2) →
  time_Now p2 = (t1, p3) →
  time_Now p3 = (t2, p4) →
  Insert (s_repo s) (storageUser in_ id hash t1 t2) (store w) = (r, st) →
  Create s in_ w =
    match r with
    | inl err =>
        (Fail (if errors_Is err ErrDuplicateRecord
               then ErrVar errAlreadyExists
               else Errorf "could not insert user: " verb_s err),
         mkWorld st (transport w) p4)
    | inr insertedUser =>
        after_Insert s insertedUser (mkWorld st (transport w) p4)
    end.
Proof.
  intros Hv Hh Hid Ht1 Ht2 Hins. unfold Create, now. open_calls.
  rewrite Hv. cbn. rewrite Hh. cbn. rewrite Hid. cbn.
  rewrite Ht1. cbn. rewrite Ht2. cbn. rewrite Hins.
  destruct r as [err | insertedUser]; reflexivity.
Qed.

End CreateFacts.

Section VerificationFacts.
Context {R T P : Type} `{Process P} `{Pure}.
Implicit Types (s : DefaultService R T) (w : World R T P).

Lemma chars_at_in_range k :
  (0 ≤ k < 36)%Z → ∃ c, chars_at k = Some c ∧ lower_alnum c = true.
Proof.
  intros [Hlo Hhi]. unfold chars_at.
  rewrite bool_decide_eq_true_2 by exact Hlo.
  assert (Hn : (Z.to_nat k < 36)%nat) by lia.
  revert Hn. generalize (Z.to_nat k) as n. intros n Hn.
  do 36 (destruct n as [| n]; [eexists; split; reflexivity |]).
  lia.
Qed.

(** [randString] returns: it draws [length] characters of [chars] and
    touches nothing but the process. *)
Lemma randString_returns (length : nat) w :
  ∃ code p,
    randString length w = (Ret code, mkWorld (store w) (transport w) p) ∧
    String.length code = length ∧
    forallb lower_alnum (list_ascii_of_string code) = true.
Proof.
  revert w. induction length as [| n IH]; intros w.
  - exists "", (proc w). destruct w; repeat split.
  - cbn [randString]. unfold bind at 1, call_proc.
    pose proof (Intn_range (Z.of_nat (String.length chars)) (proc w)) as Hr.
    destruct (seededRand_Intn (Z.of_nat (String.length chars)) (proc w))
      as [k p1] eqn:Hk.
    destruct (chars_at_in_range k) as (c & Hc & Hal).
    { apply Hr. reflexivity. }
    rewrite Hc.
    destruct (IH (mkWorld (store w) (transport w) p1)) as (rest & p & Hrest & Hlen & Hall).
    exists (String c rest), p. split; [| split].
    + unfold bind, ret. rewrite Hrest. reflexivity.
    + cbn. rewrite Hlen. reflexivity.
    + cbn. rewrite Hal, Hall. reflexivity.
Qed.

(** All of [SendEmailVerification]: the record it hands to the
    repository, and what each answer of the repository and of the mailer
    leads to. *)
Lemma SendEmailVerification_runs s userID username to w code p1 t1 p2 t2 p3 :
  randString 6 w = (Ret code, mkWorld (store w) (transport w) p1) →
  time_Now p1 = (t1, p2) →
  time_Now p2 = (t2, p3) →
  SendEmailVerification s userID username to w =
    match InsertEmailVerification (s_repo s)
            (repository.mkEmailVerification code userID t1
               (Time_Add t2 (Hour * 24))) (store w) with
    | (Some err, st) =>
        (Fail (Errorf "could not insert email verification: " verb_s err),
         mkWorld st (transport w) p3)
    | (None, st) =>
        match s_emailer s with
        | None => (Panic, mkWorld st (transport w) p3)
        | Some em =>
            match Send em (emailVerificationSenderName s) to
                    (verification_body s to code) (transport w) with
            | (Some err, tr) =>
                (Fail (Errorf "could not send email verification: " verb_s err),
                 mkWorld st tr p3)
            | (None, tr) => (Ret tt, mkWorld st tr p3)
            end
        end
    end.
Proof.
  intros Hcode Ht1 Ht2. unfold SendEmailVerification, now.
  erewrite bind_Ret by exact Hcode.
  open_calls. cbn. rewrite Ht1. cbn. rewrite Ht2. cbn. unfold Time_UTC.
  destruct (InsertEmailVerification _ _ _) as [[err |] st]; cbn; [reflexivity |].
  destruct (s_emailer s) as [em |]; [| reflexivity].
  cbn. destruct (Send em _ _ _ _) as [[err |] tr]; reflexivity.
Qed.

(** With a mailer configured, [SendEmailVerification] does not panic. *)
Lemma SendEmailVerification_no_panic s em userID username to w :
  s_emailer s = Some em →
  (SendEmailVerification s userID username to w).1 ≠ Panic.
Proof.
  intros Hem.
  destruct (randString_returns 6 w) as (code & p1 & Hcode & _ & _).
  destruct (time_Now p1) as [t1 p2] eqn:Ht1.
  destruct (time_Now p2) as [t2 p3] eqn:Ht2.
  rewrite (SendEmailVerification_runs s userID username to w _ _ _ _ _ _ Hcode Ht1 Ht2).
  rewrite Hem.
  destruct (InsertEmailVerification _ _ _) as [[err |] st]; [discriminate |].
  destruct (Send em _ _ _ _) as [[err |] tr]; discriminate.
Qed.

End VerificationFacts.

Section CreateClaims.
Context {R T P : Type} `{Process P} `{Pure}.
Implicit Types (s : DefaultService R T) (w : World R T P).

(** The domain view of a stored record keeps its flag, and its role when
    that is one of the two known ones. *)
Lemma newUserFromRepository_fields ru user :
  newUserFromRepository (Some ru) = Ret user →
  ID user = repository.ID ru ∧
  Username user = repository.Username ru ∧
  Email user = repository.Email ru ∧
  Role user = repository.Role ru ∧
  EmailVerified user = repository.EmailVerified ru.
Proof.
  unfold newUserFromRepository.
  repeat case_bool_decide; intros [= <-]; cbn; auto.
Qed.

(** The tail of [Create] returns the user it mapped, whatever the
    verification step does. *)
Lemma after_Insert_returns s ru user w :
  newUserFromRepository (Some ru) = Ret user →
  match s_emailer s with
  | None => after_Insert s (Some ru) w = (Ret user, w)
  | Some _ =>
      match SendEmailVerification s (ID user) (Username user) (Email user) w with
      | (Ret _, w2) => after_Insert s (Some ru) w = (Ret user, w2)
      | (Fail err, w2) =>
          after_Insert s (Some ru) w =
            (Ret user,
             mkWorld (store w2) (transport w2)
               (logger_Error "could not send email verification"
                             (ID user) err (proc w2)))
      | (Panic, _) => False
      end
  end.
Proof.
  intros Hu. unfold after_Insert. open_calls. rewrite Hu.
  destruct (s_emailer s) as [em |] eqn:Hem; [| reflexivity].
  pose proof (SendEmailVerification_no_panic s em (ID user) (Username user)
                (Email user) w Hem) as Hnp.
  destruct (SendEmailVerification s (ID user) (Username user) (Email user) w)
    as [[[] | err |] w2]; cbn in *; [reflexivity | reflexivity | congruence].
Qed.

(** C4.  A creation input that passes validation reaches the repository
    as a record with role "user" and emailVerified false, whatever the
    input holds; when the password hashes and the repository stores the
    record and hands it back with that role and flag, [Create] returns a
    user with role [RoleUser] and [EmailVerified = false]. *)
Theorem Create_role_user_unverified s in_ w hash p1 id p2 t1 p3 t2 p4 ru st :
  CreateUserInput_validate in_ = None →
  bcrypt_GenerateFromPassword (inPassword in_) (proc w) = (inr hash, p1) →
  uuid_NewString p1 = (id, p2) →
  time_Now p2 = (t1, p3) →
  time_Now p3 = (t2, p4) →
  Insert (s_repo s) (storageUser in_ id hash t1 t2) (store w)
    = (inr (Some ru), st) →
  repository.Role ru = repository.Role (storageUser in_ id hash t1 t2) →
  repository.EmailVerified ru
    = repository.EmailVerified (storageUser in_ id hash t1 t2) →
  repository.Role (storageUser in_ id hash t1 t2) = "user" ∧
  repository.EmailVerified (storageUser in_ id hash t1 t2) = false ∧
  ∃ user w',
    Create s in_ w = (Ret user, w') ∧
    Role user = RoleUser ∧ EmailVerified user = false.
Proof.
  intros Hv Hh Hid Ht1 Ht2 Hins Hrole Hflag.
  split; [reflexivity |]. split; [reflexivity |].
  rewrite (Create_reaches_Insert s in_ w _ _ _ _ _ _ _ _ _ _ Hv Hh Hid Ht1 Ht2 Hins).
  cbn in Hrole, Hflag.
  assert (Hu : ∃ user, newUserFromRepository (Some ru) = Ret user) .
  { unfold newUserFromRepository. rewrite Hrole.
    rewrite bool_decide_eq_true_2 by reflexivity. eauto. }
  destruct Hu as [user Hu].
  destruct (newUserFromRepository_fields ru user Hu) as (_ & _ & _ & Hr & Hf).
  pose proof (after_Insert_returns s ru user (mkWorld st (transport w) p4) Hu) as Hafter.
  assert (Hgoal : ∃ w', after_Insert s (Some ru) (mkWorld st (transport w) p4) = (Ret user, w')).
  { destruct (s_emailer s); [| eauto].
    destruct (SendEmailVerification s _ _ _ _) as [[[] | err |] w2];
      [eauto | eauto | contradiction]. }
  destruct Hgoal as [w' Hw']. exists user, w'.
  split; [exact Hw' |]. split; congruence.
Qed.

(** C6.  When [Insert] reports an error for a valid input: a duplicate
    record (by [errors.Is]) makes [Create] fail with [errAlreadyExists];
    any other error is returned inside a "could not insert user" error
    that is not [errAlreadyExists].  No user is returned either way. *)
Theorem Create_insert_error s in_ w hash p1 id p2 t1 p3 t2 p4 err st :
  CreateUserInput_validate in_ = None →
  bcrypt_GenerateFromPassword (inPassword in_) (proc w) = (inr hash, p1) →
  uuid_NewString p1 = (id, p2) →
  time_Now p2 = (t1, p3) →
  time_Now p3 = (t2, p4) →
  Insert (s_repo s) (storageUser in_ id hash t1 t2) (store w) = (inl err, st) →
  if errors_Is err ErrDuplicateRecord
  then Create s in_ w = (Fail errAlreadyExists, mkWorld st (transport w) p4)
  else Create s in_ w =
         (Fail (Errorf "could not insert user: " verb_s err),
          mkWorld st (transport w) p4) ∧
       errors_Is (Errorf "could not insert user: " verb_s err)
                 errAlreadyExists = false.
Proof.
  intros Hv Hh Hid Ht1 Ht2 Hins.
  rewrite (Create_reaches_Insert s in_ w _ _ _ _ _ _ _ _ _ _ Hv Hh Hid Ht1 Ht2 Hins).
  destruct (errors_Is err ErrDuplicateRecord); [reflexivity |].
  split; reflexivity.
Qed.

(** C8.  Once [Insert] has stored a valid input, [Create] returns the
    created user with a nil error in every case.  With a mailer
    configured, a verification step that fails is logged and changes
    nothing else; without one the step is not run, and the world is the one
    [Insert] left. *)
Theorem Create_survives_send_failure
    s in_ w hash p1 id p2 t1 p3 t2 p4 ru st user :
  CreateUserInput_validate in_ = None →
  bcrypt_GenerateFromPassword (inPassword in_) (proc w) = (inr hash, p1) →
  uuid_NewString p1 = (id, p2) →
  time_Now p2 = (t1, p3) →
  time_Now p3 = (t2, p4) →
  Insert (s_repo s) (storageUser in_ id hash t1 t2) (store w)
    = (inr (Some ru), st) →
  newUserFromRepository (Some ru) = Ret user →
  (Create s in_ w).1 = Ret user ∧
  (s_emailer s = None →
   Create s in_ w = (Ret user, mkWorld st (transport w) p4)) ∧
  (s_emailer s ≠ None →
   ∀ err w2,
     SendEmailVerification s (ID user) (Username user) (Email user)
       (mkWorld st (transport w) p4) = (Fail err, w2) →
     Create s in_ w =
       (Ret user,
        mkWorld (store w2) (transport w2)
          (logger_Error "could not send email verification"
                        (ID user) err (proc w2)))).
Proof.
  intros Hv Hh Hid Ht1 Ht2 Hins Hu.
  rewrite (Create_reaches_Insert s in_ w _ _ _ _ _ _ _ _ _ _ Hv Hh Hid Ht1 Ht2 Hins).
  pose proof (after_Insert_returns s ru user (mkWorld st (transport w) p4) Hu)
    as Hafter.
  destruct (s_emailer s) as [em |].
  - destruct (SendEmailVerification s _ _ _ _) as [[[] | err |] w2];
      [| | contradiction].
    + rewrite Hafter. split; [reflexivity |].
      split; [discriminate |]. intros _ err w3. discriminate.
    + rewrite Hafter. split; [reflexivity |].
      split; [discriminate |]. intros _ err' w3 [= <- <-]. reflexivity.
  - rewrite Hafter. split; [reflexivity |].
    split; [reflexivity |]. intros Hne. contradiction.
Qed.

End CreateClaims.

Section VerificationClaims.
Context {R T P : Type} `{Process P} `{Pure}.
Implicit Types (s : DefaultService R T) (w : World R T P).

(** What [SendEmailVerification] stores, for every call: a code of 6
    lowercase letters and digits, the given user id, the first reading of
    the clock as [CreatedAt] and 24 hours after the second reading as
    [ExpiresAt].  The store it leaves is the one
    [InsertEmailVerification] left. *)
Lemma SendEmailVerification_record s userID username to w :
  ∃ code p1 t1 p2 t2 p3,
    randString 6 w = (Ret code, mkWorld (store w) (transport w) p1) ∧
    time_Now p1 = (t1, p2) ∧ time_Now p2 = (t2, p3) ∧
    String.length code = 6%nat ∧
    forallb lower_alnum (list_ascii_of_string code) = true ∧
    let ev := repository.mkEmailVerification code userID t1
                (Time_Add t2 (Hour * 24)) in
    repository.UserID ev = userID ∧
    repository.ExpiresAt ev = (t2 + 24 * Hour)%Z ∧
    store (SendEmailVerification s userID username to w).2
      = (InsertEmailVerification (s_repo s) ev (store w)).2.
Proof.
  destruct (randString_returns 6 w) as (code & p1 & Hcode & Hlen & Hall).
  destruct (time_Now p1) as [t1 p2] eqn:Ht1.
  destruct (time_Now p2) as [t2 p3] eqn:Ht2.
  exists code, p1, t1, p2, t2, p3.
  do 5 (split; [assumption |]).
  cbn zeta. split; [reflexivity |]. split; [unfold Time_Add; cbn; lia |].
  rewrite (SendEmailVerification_runs s userID username to w _ _ _ _ _ _ Hcode Ht1 Ht2).
  destruct (InsertEmailVerification _ _ _) as [[err |] st]; [reflexivity |].
  destruct (s_emailer s) as [em |]; [| reflexivity].
  destruct (Send em _ _ _ _) as [[err |] tr]; reflexivity.
Qed.

(** C10.  When the repository accepts the verification record and the
    mailer then rejects the message, [SendEmailVerification] returns the
    delivery error and the store is the one [InsertEmailVerification]
    left: the record stays.  And whatever the three string arguments are,
    the store the call leaves is the one [InsertEmailVerification] left
    for the record built from them: nothing is checked first. *)
Theorem SendEmailVerification_not_atomic
    s em userID username to w code p1 t1 p2 t2 p3 st err tr :
  s_emailer s = Some em →
  randString 6 w = (Ret code, mkWorld (store w) (transport w) p1) →
  time_Now p1 = (t1, p2) →
  time_Now p2 = (t2, p3) →
  InsertEmailVerification (s_repo s)
    (repository.mkEmailVerification code userID t1 (Time_Add t2 (Hour * 24)))
    (store w) = (None, st) →
  Send em (emailVerificationSenderName s) to (verification_body s to code)
    (transport w) = (Some err, tr) →
  SendEmailVerification s userID username to w =
    (Fail (Errorf "could not send email verification: " verb_s err),
     mkWorld st tr p3) ∧
  ∀ userID' username' to',
    store (SendEmailVerification s userID' username' to' w).2 =
    (InsertEmailVerification (s_repo s)
       (repository.mkEmailVerification code userID' t1
          (Time_Add t2 (Hour * 24))) (store w)).2.
Proof.
  intros Hem Hcode Ht1 Ht2 Hins Hsend. split.
  - rewrite (SendEmailVerification_runs s userID username to w _ _ _ _ _ _ Hcode Ht1 Ht2).
    rewrite Hins, Hem, Hsend. reflexivity.
  - intros userID' username' to'.
    rewrite (SendEmailVerification_runs s userID' username' to' w _ _ _ _ _ _ Hcode Ht1 Ht2).
    destruct (InsertEmailVerification (s_repo s)
                (repository.mkEmailVerification code userID' _ _) (store w))
      as [[e |] st']; [reflexivity |].
    rewrite Hem.
    destruct (Send em _ to' _ _) as [[e |] tr']; reflexivity.
Qed.

End VerificationClaims.

Section GenerateTokenClaims.
Context {R T P : Type} `{Process P} `{Pure}.
Implicit Types (s : DefaultService R T) (w : World R T P).

(** C3, as the code has it.  For an email and a password that pass
    validation: an email that no user has fails with [errNotFound]; the
    email of a stored user with a password that does not match the stored
    hash fails with [errPasswordInvalid].  The two errors are different
    values. *)
Theorem GenerateToken_unknown_email_or_wrong_password
    s email password w found st :
  validate_Email email = None →
  validate_Password password = None →
  SelectByEmail (s_repo s) email (store w) = (inr found, st) →
  match found with
  | None =>
      GenerateToken s email password w =
        (Fail errNotFound, mkWorld st (transport w) (proc w))
  | Some storageUser =>
      bcrypt_CompareHashAndPassword
        (repository.PasswordHash storageUser) password ≠ None →
      GenerateToken s email password w =
        (Fail errPasswordInvalid, mkWorld st (transport w) (proc w))
  end ∧
  Fail (A:=tokenString) errNotFound ≠ Fail errPasswordInvalid.
Proof.
  intros He Hp Hsel. split; [| discriminate].
  unfold GenerateToken. open_calls. rewrite He, Hp. cbn. rewrite Hsel. cbn.
  destruct found as [storageUser |]; [| reflexivity].
  intros Hcmp.
  destruct (bcrypt_CompareHashAndPassword _ _); [reflexivity | congruence].
Qed.

End GenerateTokenClaims.

Section VerifyTokenClaims.
Context {R T P : Type} `{Process P} `{Pure}.
Implicit Types (s : DefaultService R T) (w : World R T P).

(** A token [jwt.Parse] returns without error is marked valid, came from
    a non-empty string, and cost one reading of the clock. *)
Lemma Parse_Ret_inv tokenString keyFunc w jwtToken w1 :
  jwt.Parse tokenString keyFunc w = (Ret jwtToken, w1) →
  jwt.Valid jwtToken = true ∧ tokenString ≠ Empty ∧
  ∃ t p, time_Now (proc w) = (t, p) ∧
         w1 = mkWorld (store w) (transport w) p.
Proof.
  unfold jwt.Parse.
  destruct (jwt.ParseUnverified tokenString) as [e | token] eqn:Hpu;
    [discriminate |].
  destruct (keyFunc token) as [[] | key]; try discriminate.
  open_calls. destruct (time_Now (proc w)) as [t p] eqn:Ht.
  case_bool_decide; [| discriminate].
  intros [= <- <-]. split; [reflexivity |]. split; [| eauto].
  intros ->. discriminate.
Qed.

(** [VerifyToken] after a successful parse of a token that carries the
    three claims it reads. *)
Lemma VerifyToken_runs s token w jwtToken w1 userID role expiration t p2 :
  jwt.Parse token (keyFunc s) w = (Ret jwtToken, w1) →
  jwt.Claims jwtToken !! "user_id" = Some (JString userID) →
  jwt.Claims jwtToken !! "role" = Some (JString role) →
  jwt.Claims jwtToken !! "exp" = Some (JNumber expiration) →
  time_Now (proc w1) = (t, p2) →
  VerifyToken s token w =
    if Time_Before (time_Unix expiration 0) t
    then (Fail errTokenExpired, mkWorld (store w1) (transport w1) p2)
    else
      match SelectByID (s_repo s) userID (store w1) with
      | (inl err, st) =>
          (Fail (Errorf "could not select user by id: " verb_s err),
           mkWorld st (transport w1) p2)
      | (inr None, st) => (Fail errNotFound, mkWorld st (transport w1) p2)
      | (inr (Some storageUser), st) =>
          (Ret (mkVerifyTokenResponse (repository.ID storageUser)
                  (repository.Username storageUser) role),
           mkWorld st (transport w1) p2)
      end.
Proof.
  intros Hparse Hid Hrole Hexp Ht.
  destruct (Parse_Ret_inv _ _ _ _ _ Hparse) as (Hvalid & Hne & _).
  unfold VerifyToken.
  destruct token as [| why | header claims signature]; [congruence | |].
  all: rewrite (bind_Ret _ _ w jwtToken w1)
         by (apply on_err_Ret; exact Hparse).
  all: rewrite Hvalid, Hid, Hrole, Hexp; cbn [negb].
  all: unfold now; open_calls; rewrite Ht.
  all: destruct (Time_Before (time_Unix expiration 0) t); [reflexivity |].
  all: cbn.
  all: destruct (SelectByID (s_repo s) userID (store w1)) as [[err | [u |]] st];
       reflexivity.
Qed.

(** C9.  For a token that parses, passes the signature check and both
    expiry checks and names a user id: when the lookup by that id finds
    no record [VerifyToken] fails with [errNotFound]; when it finds one,
    the response has the record's id and username and the role of the
    token's claim. *)
Theorem VerifyToken_refetches_user
    s token w jwtToken w1 userID role expiration t p2 found st :
  jwt.Parse token (keyFunc s) w = (Ret jwtToken, w1) →
  jwt.Claims jwtToken !! "user_id" = Some (JString userID) →
  jwt.Claims jwtToken !! "role" = Some (JString role) →
  jwt.Claims jwtToken !! "exp" = Some (JNumber expiration) →
  time_Now (proc w1) = (t, p2) →
  Time_Before (time_Unix expiration 0) t = false →
  SelectByID (s_repo s) userID (store w1) = (inr found, st) →
  VerifyToken s token w =
    (match found with
     | None => Fail errNotFound
     | Some storageUser =>
         Ret (mkVerifyTokenResponse (repository.ID storageUser)
                (repository.Username storageUser) role)
     end, mkWorld st (transport w1) p2).
Proof.
  intros Hparse Hid Hrole Hexp Ht Hfresh Hsel.
  rewrite (VerifyToken_runs s token w _ _ _ _ _ _ _ Hparse Hid Hrole Hexp Ht).
  rewrite Hfresh, Hsel. destruct found; reflexivity.
Qed.

(** C2, as the code has it.  For a token that [jwt.Parse] accepts and
    that carries the three claims: [VerifyToken] fails with
    [errTokenExpired] when the expiry is strictly before the time it
    reads, and does not fail with [errTokenExpired] when the expiry is at
    that time or after it. *)
Theorem VerifyToken_expired_strictly_before
    s token w jwtToken w1 userID role expiration t p2 :
  jwt.Parse token (keyFunc s) w = (Ret jwtToken, w1) →
  jwt.Claims jwtToken !! "user_id" = Some (JString userID) →
  jwt.Claims jwtToken !! "role" = Some (JString role) →
  jwt.Claims jwtToken !! "exp" = Some (JNumber expiration) →
  time_Now (proc w1) = (t, p2) →
  ((time_Unix expiration 0 < t)%Z →
   VerifyToken s token w =
     (Fail errTokenExpired, mkWorld (store w1) (transport w1) p2)) ∧
  ((t ≤ time_Unix expiration 0)%Z →
   (VerifyToken s token w).1 ≠ Fail errTokenExpired).
Proof.
  intros Hparse Hid Hrole Hexp Ht.
  rewrite (VerifyToken_runs s token w _ _ _ _ _ _ _ Hparse Hid Hrole Hexp Ht).
  unfold Time_Before. split; intros Hcmp.
  - rewrite bool_decide_eq_true_2 by exact Hcmp. reflexivity.
  - rewrite bool_decide_eq_false_2 by lia.
    destruct (SelectByID (s_repo s) userID (store w1)) as [[err | [u |]] st];
      cbn; discriminate.
Qed.

(** A token whose header does not name HS512 is refused by [jwt.Parse]
    before the clock is read. *)
Lemma Parse_refuses_other_alg s header claims signature w :
  header !! "alg" ≠ Some (JString "HS512") →
  ∃ inner flags,
    jwt.Parse (Compact header claims signature) (keyFunc s) w
      = (Fail (ValidationError inner flags), w) ∧
    flags = jwt.ValidationErrorUnverifiable.
Proof.
  intros Halg. unfold jwt.Parse, jwt.ParseUnverified.
  destruct (header !! "alg") as [[alg | | | |] |] eqn:Hh;
    try (eexists _, _; split; reflexivity).
  unfold jwt.GetSigningMethod.
  case_bool_decide as Hhmac.
  - unfold keyFunc. cbn [jwt.Method jwt.Alg jwtSigningMethod jwt.SigningMethodHS512].
    rewrite bool_decide_eq_true_2 by congruence.
    eexists _, _; split; reflexivity.
  - case_bool_decide as Hother.
    + unfold keyFunc. cbn. eexists _, _; split; reflexivity.
    + eexists _, _; split; reflexivity.
Qed.

(** C5, as the code has it.  A token string whose header names an
    algorithm other than HS512 (or none at all) is refused whatever its
    payload and signature are: [VerifyToken] returns no response, leaves
    the world as it was, and fails with a "could not parse token" error
    made from the library's; that error is not [errTokenInvalid]. *)
Theorem VerifyToken_refuses_other_alg s header claims signature w :
  header !! "alg" ≠ Some (JString "HS512") →
  ∃ inner,
    VerifyToken s (Compact header claims signature) w =
      (Fail (Errorf "could not parse token: " verb_s
               (ValidationError inner jwt.ValidationErrorUnverifiable)), w) ∧
    errors_Is (Errorf "could not parse token: " verb_s
                 (ValidationError inner jwt.ValidationErrorUnverifiable))
              errTokenInvalid = false.
Proof.
  intros Halg.
  destruct (Parse_refuses_other_alg s header claims signature w Halg)
    as (inner & flags & Hparse & ->).
  exists inner. split; [| reflexivity].
  unfold VerifyToken.
  apply bind_Fail. apply on_err_Fail. exact Hparse.
Qed.

End VerifyTokenClaims.

Section RoundTrip.
Context {R T P : Type} `{Process P} `{Pure}.
Implicit Types (s : DefaultService R T) (w : World R T P).

(** The payload of a [StandardClaims]: the two dates, when not zero. *)
Lemma StandardClaims_json_exp c :
  jwt.StandardClaims_json c !! "exp" =
    if bool_decide (jwt.ExpiresAt c = 0) then None
    else Some (JNumber (jwt.ExpiresAt c)).
Proof.
  unfold jwt.StandardClaims_json, jwt.omitempty_string, jwt.omitempty_int64.
  repeat case_bool_decide; simplify_map_eq; reflexivity.
Qed.

Lemma StandardClaims_json_iat c :
  jwt.StandardClaims_json c !! "iat" =
    if bool_decide (jwt.IssuedAt c = 0) then None
    else Some (JNumber (jwt.IssuedAt c)).
Proof.
  unfold jwt.StandardClaims_json, jwt.omitempty_string, jwt.omitempty_int64.
  repeat case_bool_decide; simplify_map_eq; reflexivity.
Qed.

Lemma StandardClaims_json_nbf c :
  jwt.StandardClaims_json c !! "nbf" =
    if bool_decide (jwt.NotBefore c = 0) then None
    else Some (JNumber (jwt.NotBefore c)).
Proof.
  unfold jwt.StandardClaims_json, jwt.omitempty_string, jwt.omitempty_int64.
  repeat case_bool_decide; simplify_map_eq; reflexivity.
Qed.

(** The payload written for a [jwtClaim] has no "user_id" and no "role"
    member: the two fields are not exported. *)
Lemma jwtClaim_json_no_user_id c : jwtClaim_json c !! "user_id" = None.
Proof.
  unfold jwtClaim_json, jwt.StandardClaims_json,
         jwt.omitempty_string, jwt.omitempty_int64.
  repeat case_bool_decide; simplify_map_eq; reflexivity.
Qed.

Lemma jwtClaim_json_no_role c : jwtClaim_json c !! "role" = None.
Proof.
  unfold jwtClaim_json, jwt.StandardClaims_json,
         jwt.omitempty_string, jwt.omitempty_int64.
  repeat case_bool_decide; simplify_map_eq; reflexivity.
Qed.

Lemma HS512_header_alg : HS512_header !! "alg" = Some (JString "HS512").
Proof. reflexivity. Qed.

Lemma GetSigningMethod_HS512 :
  jwt.GetSigningMethod "HS512" = Some (jwt.SigningMethodHMAC "HS512").
Proof. reflexivity. Qed.

(** What [generateJWT] returns when it returns a token. *)
Lemma generateJWT_Ret_inv s userID r w token w1 :
  generateJWT s userID r w = (Ret token, w1) →
  ∃ t p,
    time_Now (proc w) = (t, p) ∧
    w1 = mkWorld (store w) (transport w) p ∧
    let claims :=
      jwtClaim_json
        (mkJwtClaim userID r
           (jwt.mkStandardClaims "" (Time_Unix (Time_Add t (Hour * 24))) ""
                                 (Time_Unix t) "" 0 "")) in
    token = Compact HS512_header claims
              (HMAC "HS512" (jwtSigningKey s) (HS512_header, claims)).
Proof.
  unfold generateJWT, now. open_calls.
  destruct (validate_ID userID); [discriminate |].
  destruct (role_validate r); [discriminate |].
  cbn. destruct (time_Now (proc w)) as [t p] eqn:Ht. cbn.
  intros [= <- <-]. exists t, p. repeat split.
Qed.

(** The claims of a token of [generateJWT] pass the library's date
    checks from the time of issue to 24 hours later. *)
Lemma generateJWT_claims_valid userID r t t' :
  (t ≤ t' ≤ t + 24 * Hour)%Z →
  jwt.MapClaims_Valid
    (jwtClaim_json
       (mkJwtClaim userID r
          (jwt.mkStandardClaims "" (Time_Unix (Time_Add t (Hour * 24))) ""
                                (Time_Unix t) "" 0 "")))
    (Time_Unix t') = jwt.vErr0.
Proof.
  intros [Hlo Hhi].
  assert (Hiat : (Time_Unix t ≤ Time_Unix t')%Z).
  { unfold Time_Unix. apply Z.div_le_mono; [reflexivity | exact Hlo]. }
  assert (Hexp : (Time_Unix t' ≤ Time_Unix (Time_Add t (Hour * 24)))%Z).
  { unfold Time_Unix, Time_Add. apply Z.div_le_mono; [reflexivity | lia]. }
  unfold jwt.MapClaims_Valid, jwt.VerifyNotBefore, jwt.VerifyIssuedAt,
         jwt.VerifyExpiresAt, jwt.verifyClaim, jwtClaim_json.
  rewrite StandardClaims_json_nbf, StandardClaims_json_iat,
          StandardClaims_json_exp.
  cbn [jwt.NotBefore jwt.IssuedAt jwt.ExpiresAt claim_StandardClaims].
  rewrite (bool_decide_eq_true_2 (0 = 0)%Z) by reflexivity.
  unfold jwt.flag at 1. cbn [negb].
  unfold jwt.verifyIat, jwt.verifyExp, jwt.flag.
  repeat case_bool_decide; cbn; try reflexivity; lia.
Qed.

(** C1, on the code.  A token that [generateJWT] issued, verified by the
    same service between its issue and its expiry, is not accepted:
    [VerifyToken] fails with "could not find user id in token" and never
    reaches the repository. *)
Theorem VerifyToken_of_generateJWT_fails
    s userID r w token w1 t p w2 t' p' :
  generateJWT s userID r w = (Ret token, w1) →
  time_Now (proc w) = (t, p) →
  time_Now (proc w2) = (t', p') →
  (t ≤ t' ≤ t + 24 * Hour)%Z →
  VerifyToken s token w2 =
    (Fail (ErrText "could not find user id in token"),
     mkWorld (store w2) (transport w2) p').
Proof.
  intros Hgen Ht Ht' Hwin.
  destruct (generateJWT_Ret_inv _ _ _ _ _ _ Hgen) as (t0 & p0 & Ht0 & _ & Htok).
  rewrite Ht in Ht0. injection Ht0 as <- <-.
  cbn zeta in Htok. subst token.
  unfold VerifyToken.
  erewrite bind_Ret; [| apply on_err_Ret].
  2:{ unfold jwt.Parse, jwt.ParseUnverified.
      rewrite HS512_header_alg, GetSigningMethod_HS512.
      unfold keyFunc. cbn [jwt.Method jwt.Alg jwtSigningMethod jwt.SigningMethodHS512].
      rewrite bool_decide_eq_false_2 by (intros Hne; apply Hne; reflexivity).
      open_calls. rewrite Ht'.
      cbn [jwt.Claims jwt.Header jwt.Signature jwt.Method jwt.Verify].
      rewrite (generateJWT_claims_valid userID r t t' Hwin).
      rewrite (bool_decide_eq_true_2 (HMAC _ _ _ = _)) by reflexivity.
      reflexivity. }
  cbn [jwt.Valid jwt.Claims negb].
  rewrite jwtClaim_json_no_user_id. reflexivity.
Qed.

(** In no world does [VerifyToken] return a response for a token that
    [generateJWT] issued. *)
Lemma VerifyToken_of_generateJWT_never_returns
    s s' userID r w token w1 w2 :
  generateJWT s userID r w = (Ret token, w1) →
  ∃ e w3, VerifyToken s' token w2 = (Fail e, w3).
Proof.
  intros Hgen.
  destruct (generateJWT_Ret_inv _ _ _ _ _ _ Hgen) as (t0 & p0 & _ & _ & Htok).
  cbn zeta in Htok. subst token. unfold VerifyToken. cbv beta iota.
  match goal with
  | |- context [jwt.Parse ?tok ?kf] =>
      destruct (jwt.Parse tok kf w2) as [[tk | e |] w3] eqn:Hparse
  end.
  - erewrite bind_Ret; [| apply on_err_Ret; exact Hparse].
    destruct (Parse_Ret_inv _ _ _ _ _ Hparse) as (Hvalid & _ & _).
    assert (Hc : jwt.Claims tk !! "user_id" = None).
    { revert Hparse. unfold jwt.Parse, jwt.ParseUnverified.
      rewrite HS512_header_alg, GetSigningMethod_HS512.
      destruct (keyFunc s' _) as [[] | key]; try discriminate.
      open_calls. destruct (time_Now (proc w2)) as [t' p'].
      case_bool_decide; [| discriminate].
      intros [= <- _]. apply jwtClaim_json_no_user_id. }
    rewrite Hvalid, Hc. cbn. eauto.
  - erewrite bind_Fail; [| apply on_err_Fail; exact Hparse]. eauto.
  - exfalso. revert Hparse. unfold jwt.Parse, jwt.ParseUnverified.
    rewrite HS512_header_alg, GetSigningMethod_HS512.
    destruct (keyFunc s' _) as [[] | key]; try discriminate.
    open_calls. destruct (time_Now (proc w2)) as [t' p'].
    case_bool_decide; discriminate.
Qed.

End RoundTrip.

(** ** The service on the in-memory world *)

Section Runs.
Import InMemory.

(** Joe signs up in a world that already has Jane. *)
Lemma Create_role_user_unverified_witness :
  repository.Role
    (storageUser joe_in (ID joe) "$2a$10$hunter2hunter2"
                 (CreatedAt joe) (UpdatedAt joe)) = "user" ∧
  repository.EmailVerified
    (storageUser joe_in (ID joe) "$2a$10$hunter2hunter2"
                 (CreatedAt joe) (UpdatedAt joe)) = false ∧
  ∃ user w', Create svc joe_in w0 = (Ret user, w') ∧
             Role user = RoleUser ∧ EmailVerified user = false.
Proof.
  eapply (Create_role_user_unverified svc joe_in w0); run.
Defined.

(** A second account for Jane's address is a duplicate; a repository out
    of reach is another storage error. *)
Lemma Create_insert_error_witness :
  Create svc jane_again w0 =
    (Fail errAlreadyExists,
     mkWorld (store w0) (transport w0)
             (mkProc 1700000100000000002 1 [] 42 [])) ∧
  Create (New "secret" downRepo []) joe_in w0 =
    (Fail (Errorf "could not insert user: " verb_s
             (ErrText "connection refused")),
     mkWorld (store w0) (transport w0)
             (mkProc 1700000100000000002 1 [] 42 [])).
Proof.
  split.
  - eapply (Create_insert_error svc jane_again w0 _ _ _ _ _ _ _ _
              (Errorf "insert: " verb_w ErrDuplicateRecord)); run.
  - edestruct (Create_insert_error (New "secret" downRepo []) joe_in w0)
      with (err := ErrText "connection refused")
      as [Hother _]; [run .. |].
    exact Hother.
Defined.

(** Joe signs up while the mail transport is down: he gets his account
    and the failure is logged; without a mailer nothing is sent or
    stored for verification. *)
Lemma Create_survives_send_failure_witness :
  (Create svc joe_in w_down).1 = Ret joe ∧
  (∃ w', Create svc joe_in w_down = (Ret joe, w') ∧
         log (proc w') =
           [("could not send email verification", ID joe,
             Errorf "could not send email verification: " verb_s
                    (ErrText "smtp: connection refused"))]) ∧
  Create svc_no_mail joe_in w_down =
    (Ret joe,
     mkWorld (mkStore [jane;
                       storageUser joe_in (ID joe) "$2a$10$hunter2hunter2"
                                   (CreatedAt joe) (UpdatedAt joe)] [])
             (transport w_down) (mkProc 1700000100000000002 1 [] 42 [])).
Proof.
  edestruct (Create_survives_send_failure svc joe_in w_down)
    as (Hret & _ & Hfail); [run .. |].
  edestruct (Create_survives_send_failure svc_no_mail joe_in w_down)
    as (_ & Hnone & _); [run .. |].
  split; [exact Hret |]. split.
  - eexists. split; [apply Hfail; [discriminate | run] | reflexivity].
  - apply Hnone. reflexivity.
Defined.

(** With the mail transport down the call fails and the record is in the
    store. *)
Lemma SendEmailVerification_not_atomic_witness :
  ∃ st,
    SendEmailVerification svc "u1" "janedoe" "jane@example.com" w_down =
      (Fail (Errorf "could not send email verification: " verb_s
               (ErrText "smtp: connection refused")),
       mkWorld st (transport w_down)
         (mkProc 1700000100000000002 1
                 ["16fd2706-8baf-433b-82eb-8c7fada847da"] 71666532 [])) ∧
    verifications st =
      [repository.mkEmailVerification "g1ir8t" "u1" 1700000100000000000
                                     1700086500000000001].
Proof.
  eexists. split.
  - edestruct (SendEmailVerification_not_atomic svc memEmailer
                 "u1" "janedoe" "jane@example.com" w_down)
      as [Hfail _]; [run .. |].
    exact Hfail.
  - reflexivity.
Defined.

(** A wrong password for Jane, and an address nobody has. *)
Lemma GenerateToken_unknown_email_or_wrong_password_witness :
  GenerateToken svc "jane@example.com" "Str0ngPass?" w0
    = (Fail errPasswordInvalid, w0) ∧
  GenerateToken svc "nobody@example.com" "Str0ngPass?" w0
    = (Fail errNotFound, w0).
Proof.
  edestruct (GenerateToken_unknown_email_or_wrong_password
               svc "jane@example.com" "Str0ngPass?" w0 (Some jane))
    as [Hjane _]; [run .. |].
  edestruct (GenerateToken_unknown_email_or_wrong_password
               svc "nobody@example.com" "Str0ngPass?" w0 None)
    as [Hnobody _]; [run .. |].
  split; [apply Hjane; discriminate | exact Hnobody].
Defined.

(** C3 fails on the code: Jane is stored and "Str0ngPass?" does not match
    her hash; nobody has the other address; the two calls fail with
    different errors. *)
Lemma GenerateToken_wrong_password_differs_from_unknown_email :
  SelectByEmail memRepo "jane@example.com" (store w0)
    = (inr (Some jane), store w0) ∧
  bcrypt_CompareHashAndPassword (repository.PasswordHash jane) "Str0ngPass?"
    ≠ None ∧
  SelectByEmail memRepo "nobody@example.com" (store w0)
    = (inr None, store w0) ∧
  (GenerateToken svc "jane@example.com" "Str0ngPass?" w0).1
    = Fail errPasswordInvalid ∧
  (GenerateToken svc "nobody@example.com" "Str0ngPass?" w0).1
    = Fail errNotFound ∧
  (GenerateToken svc "jane@example.com" "Str0ngPass?" w0).1
    ≠ (GenerateToken svc "nobody@example.com" "Str0ngPass?" w0).1.
Proof.
  repeat split; try reflexivity; vm_compute; discriminate.
Qed.

(** An unsigned token with a well-formed payload. *)
Lemma VerifyToken_refuses_other_alg_witness :
  ∃ inner,
    VerifyToken svc (unsigned (claims_for_jane "admin" 1700090000)) w0 =
      (Fail (Errorf "could not parse token: " verb_s
               (ValidationError inner jwt.ValidationErrorUnverifiable)), w0) ∧
    errors_Is (Errorf "could not parse token: " verb_s
                 (ValidationError inner jwt.ValidationErrorUnverifiable))
              errTokenInvalid = false.
Proof.
  apply VerifyToken_refuses_other_alg. vm_compute. discriminate.
Defined.

(** C5 fails on the code: a token with algorithm "none" and a well-formed
    payload is refused, but not with [errTokenInvalid]. *)
Lemma VerifyToken_none_alg_is_not_errTokenInvalid :
  (VerifyToken svc (unsigned (claims_for_jane "admin" 1700090000)) w0).1 =
    Fail (Errorf "could not parse token: " verb_s
            (ValidationError (ErrText "unexpected signing method: none")
                             jwt.ValidationErrorUnverifiable)) ∧
  (VerifyToken svc (unsigned (claims_for_jane "admin" 1700090000)) w0).1
    ≠ Fail errTokenInvalid.
Proof.
  split; vm_compute; [reflexivity | discriminate].
Qed.

(** A token that names Jane as "admin": the response takes the role from
    the token, although the stored role is "user"; once Jane is gone the
    same token fails with [errNotFound]. *)
Lemma VerifyToken_refetches_user_witness :
  VerifyToken svc (signed (claims_for_jane "admin" 1700090000)) w0 =
    (Ret (mkVerifyTokenResponse (repository.ID jane) "janedoe" "admin"),
     mkWorld (store w0) (transport w0)
       (mkProc 1700000100000000002 1
               ["16fd2706-8baf-433b-82eb-8c7fada847da"] 42 [])) ∧
  VerifyToken svc (signed (claims_for_jane "admin" 1700090000))
              (mkWorld (mkStore [] []) (transport w0) (proc w0)) =
    (Fail errNotFound,
     mkWorld (mkStore [] []) (transport w0)
       (mkProc 1700000100000000002 1
               ["16fd2706-8baf-433b-82eb-8c7fada847da"] 42 [])).
Proof.
  split.
  - eapply (VerifyToken_refetches_user svc _ w0)
      with (w1 := mkWorld (store w0) (transport w0)
                    (mkProc 1700000100000000001 1
                            ["16fd2706-8baf-433b-82eb-8c7fada847da"] 42 []))
           (found := Some jane); run.
  - eapply (VerifyToken_refetches_user svc)
      with (w1 := mkWorld (mkStore [] []) (transport w0)
                    (mkProc 1700000100000000001 1
                            ["16fd2706-8baf-433b-82eb-8c7fada847da"] 42 []))
           (found := None); run.
Defined.

(** A token read a nanosecond or two after its expiry, within the same
    second, and the same token read at the instant of its expiry. *)
Lemma VerifyToken_expired_strictly_before_witness :
  VerifyToken svc (signed (claims_for_jane "user" 1700000100))
              (mkWorld (store w0) (transport w0)
                       (mkProc 1700000100000000000 1 [] 42 []))
    = (Fail errTokenExpired,
       mkWorld (store w0) (transport w0)
               (mkProc 1700000100000000002 1 [] 42 [])) ∧
  (VerifyToken svc (signed (claims_for_jane "user" 1700000100))
               (w_at 1700000100000000000)).1 ≠ Fail errTokenExpired.
Proof.
  split.
  - eapply VerifyToken_expired_strictly_before
      with (w1 := mkWorld (store w0) (transport w0)
                    (mkProc 1700000100000000001 1 [] 42 []));
      [run .. |]. reflexivity.
  - eapply VerifyToken_expired_strictly_before; [run .. |].
    vm_compute. discriminate.
Defined.

(** C2 fails on the code: at the very instant of expiry the token is
    still accepted. *)
Lemma VerifyToken_at_expiry_instant_accepts :
  (time_Now (proc (w_at (time_Unix 1700000100 0)))).1
    = time_Unix 1700000100 0 ∧
  (VerifyToken svc (signed (claims_for_jane "user" 1700000100))
               (w_at (time_Unix 1700000100 0))).1
    = Ret (mkVerifyTokenResponse (repository.ID jane) "janedoe" "user") ∧
  (VerifyToken svc (signed (claims_for_jane "user" 1700000100))
               (w_at (time_Unix 1700000100 0))).1
    ≠ Fail errTokenExpired.
Proof.
  repeat split; vm_compute; first [reflexivity | discriminate].
Qed.

(** An hour after expiry the library refuses the token first; the error
    is the parse error, not [errTokenExpired]. *)
Example VerifyToken_an_hour_late :
  (VerifyToken svc (signed (claims_for_jane "user" 1700000100))
               (w_at (time_Unix (1700000100 + 3600) 0))).1
    = Fail (Errorf "could not parse token: " verb_s
              (ValidationError (ErrText "Token is expired")
                               jwt.ValidationErrorExpired)).
Proof. vm_compute. reflexivity. Qed.

(** The service issues a token for Jane and verifies it at once. *)
Lemma VerifyToken_of_generateJWT_fails_witness :
  ∃ token w1,
    generateJWT svc (repository.ID jane) "user" w0 = (Ret token, w1) ∧
    VerifyToken svc token w1 =
      (Fail (ErrText "could not find user id in token"),
       mkWorld (store w1) (transport w1)
         (mkProc 1700000100000000002 1
                 ["16fd2706-8baf-433b-82eb-8c7fada847da"] 42 [])).
Proof.
  eexists _, _. split; [run |].
  eapply (VerifyToken_of_generateJWT_fails svc (repository.ID jane) "user" w0);
    [run | run | run |].
  vm_compute. split; discriminate.
Defined.

(** C7 fails on the code: with a clock that moves by a nanosecond between
    two readings, the stored record expires 24 hours and a nanosecond
    after its creation time.  The code and the user id are as claimed. *)
Lemma SendEmailVerification_expiry_drifts :
  ∃ ev,
    verifications
      (store (SendEmailVerification svc "u1" "janedoe" "jane@example.com" w0).2)
      = [ev] ∧
    repository.Code ev = "g1ir8t" ∧
    repository.UserID ev = "u1" ∧
    repository.ExpiresAt ev
      = Time_Add (repository.EVCreatedAt ev) (Hour * 24 + Nanosecond) ∧
    repository.ExpiresAt ev
      ≠ Time_Add (repository.EVCreatedAt ev) (Hour * 24).
Proof.
  eexists. split; [vm_compute; reflexivity |].
  repeat split; vm_compute; discriminate.
Qed.

End Runs.

(** ** More of the service: early failures, lookups, options *)

Section CreatePaths.
Context {R T P : Type} `{Process P} `{Pure}.
Implicit Types (s : DefaultService R T) (w : World R T P).

(** X1.  An input that fails validation stops [Create] at once: nothing is
    hashed, drawn, read or stored, and the error keeps the validator's
    error as its cause ([%w]), so [errors.Is] sees through it. *)
Theorem Create_invalid_input_touches_nothing s in_ w e :
  CreateUserInput_validate in_ = Some e →
  Create s in_ w =
    (Fail (Errorf "could not validate create user input: " verb_w e), w) ∧
  ∀ v, errors_Is (Errorf "could not validate create user input: " verb_w e) v
       = errors_Is e v.
Proof.
  intros Hv. split; [| reflexivity].
  unfold Create. open_calls. rewrite Hv. reflexivity.
Qed.

(** X2.  When the password cannot be hashed, [Create] fails before it
    draws an id or calls the repository: the store and the transport are
    as they were, and the error hides its cause ([%s]). *)
Theorem Create_hash_failure_skips_Insert s in_ w e p1 :
  CreateUserInput_validate in_ = None →
  bcrypt_GenerateFromPassword (inPassword in_) (proc w) = (inl e, p1) →
  Create s in_ w =
    (Fail (Errorf "could not hash password: " verb_s e),
     mkWorld (store w) (transport w) p1) ∧
  ∀ v, errors_Is (Errorf "could not hash password: " verb_s e) v = false.
Proof.
  intros Hv Hh. split; [| reflexivity].
  unfold Create. open_calls. rewrite Hv. cbn. rewrite Hh. reflexivity.
Qed.

(** Every way [Create] can end, by the step that decides it. *)
Lemma Create_cases s in_ w :
  (∃ e, CreateUserInput_validate in_ = Some e ∧
        Create s in_ w =
          (Fail (Errorf "could not validate create user input: " verb_w e), w)) ∨
  (∃ e p1, Create s in_ w =
             (Fail (Errorf "could not hash password: " verb_s e),
              mkWorld (store w) (transport w) p1)) ∨
  (∃ err st p4,
     Create s in_ w =
       (Fail (if errors_Is err ErrDuplicateRecord
              then ErrVar errAlreadyExists
              else Errorf "could not insert user: " verb_s err),
        mkWorld st (transport w) p4)) ∨
  (∃ e st p4,
     Create s in_ w =
       (Fail (Errorf "could not parse storage user to domain model: " verb_s e),
        mkWorld st (transport w) p4)) ∨
  (∃ w', Create s in_ w = (Panic, w')) ∨
  (∃ user w', Create s in_ w = (Ret user, w')).
Proof.
  destruct (CreateUserInput_validate in_) as [e |] eqn:Hv.
  { left. exists e. split; [reflexivity |].
    unfold Create. open_calls. rewrite Hv. reflexivity. }
  destruct (bcrypt_GenerateFromPassword (inPassword in_) (proc w))
    as [[e | hash] p1] eqn:Hh.
  { right. left. exists e, p1.
    unfold Create. open_calls. rewrite Hv. cbn. rewrite Hh. reflexivity. }
  destruct (uuid_NewString p1) as [id p2] eqn:Hid.
  destruct (time_Now p2) as [t1 p3] eqn:Ht1.
  destruct (time_Now p3) as [t2 p4] eqn:Ht2.
  destruct (Insert (s_repo s) (storageUser in_ id hash t1 t2) (store w))
    as [r st] eqn:Hins.
  rewrite (Create_reaches_Insert s in_ w _ _ _ _ _ _ _ _ _ _ Hv Hh Hid Ht1 Ht2 Hins).
  destruct r as [err | insertedUser].
  { right. right. left. exists err, st, p4. reflexivity. }
  unfold after_Insert. open_calls.
  destruct (newUserFromRepository insertedUser) as [user | e |].
  - destruct (s_emailer s) as [em |].
    + destruct (SendEmailVerification s (ID user) (Username user) (Email user)
                  (mkWorld st (transport w) p4)) as [[[] | e |] w2].
      * do 5 right. eauto.
      * do 5 right. eauto.
      * do 4 right. left. eauto.
    + do 5 right. eauto.
  - do 3 right. left. exists e, st, p4. reflexivity.
  - do 4 right. left. eauto.
Qed.

(** X3.  A [Create] that fails has sent no mail: each of its errors is
    returned before the verification step, which cannot fail it. *)
Theorem Create_failure_sends_no_mail s in_ w e w' :
  Create s in_ w = (Fail e, w') → transport w' = transport w.
Proof.
  intros Hc.
  destruct (Create_cases s in_ w)
    as [(e0 & _ & Hq) | [(e0 & p1 & Hq) | [(err & st & p4 & Hq)
        | [(e0 & st & p4 & Hq) | [(w0 & Hq) | (user & w0 & Hq)]]]]];
    rewrite Hq in Hc; try discriminate; injection Hc as _ <-; reflexivity.
Qed.

(** X4.  The only errors of [Create] that [errors.Is] can tell apart are
    [errAlreadyExists] and what the validator's error is; every other
    error hides its cause. *)
Theorem Create_errors s in_ w err w' :
  Create s in_ w = (Fail err, w') →
  err = ErrVar errAlreadyExists ∨
  (∃ e, CreateUserInput_validate in_ = Some e ∧
        ∀ v, errors_Is err v = errors_Is e v) ∨
  (∀ v, errors_Is err v = false).
Proof.
  intros Hc.
  destruct (Create_cases s in_ w)
    as [(e0 & Hv & Hq) | [(e0 & p1 & Hq) | [(er & st & p4 & Hq)
        | [(e0 & st & p4 & Hq) | [(w0 & Hq) | (user & w0 & Hq)]]]]];
    rewrite Hq in Hc; try discriminate; injection Hc as <- _.
  - right. left. exists e0. split; [exact Hv | reflexivity].
  - right. right. reflexivity.
  - destruct (errors_Is er ErrDuplicateRecord); [left | right; right]; reflexivity.
  - right. right. reflexivity.
Qed.

(** X5.  With a mailer configured and a verification step that succeeds,
    [Create] leaves the world that step left: the verification was stored
    and sent for the id, the username and the address of the user it
    returns. *)
Theorem Create_sends_verification_for_created_user
    s em in_ w hash p1 id p2 t1 p3 t2 p4 ru st user w2 :
  s_emailer s = Some em →
  CreateUserInput_validate in_ = None →
  bcrypt_GenerateFromPassword (inPassword in_) (proc w) = (inr hash, p1) →
  uuid_NewString p1 = (id, p2) →
  time_Now p2 = (t1, p3) →
  time_Now p3 = (t2, p4) →
  Insert (s_repo s) (storageUser in_ id hash t1 t2) (store w)
    = (inr (Some ru), st) →
  newUserFromRepository (Some ru) = Ret user →
  SendEmailVerification s (repository.ID ru) (repository.Username ru)
    (repository.Email ru) (mkWorld st (transport w) p4) = (Ret tt, w2) →
  Create s in_ w = (Ret user, w2).
Proof.
  intros Hem Hv Hh Hid Ht1 Ht2 Hins Hu Hsend.
  rewrite (Create_reaches_Insert s in_ w _ _ _ _ _ _ _ _ _ _ Hv Hh Hid Ht1 Ht2 Hins).
  pose proof (after_Insert_returns s ru user (mkWorld st (transport w) p4) Hu)
    as Hafter.
  destruct (newUserFromRepository_fields ru user Hu) as (Hi & Hn & Hm & _).
  rewrite Hem, Hi, Hn, Hm, Hsend in Hafter. exact Hafter.
Qed.

(** X6.  When the repository stores the record and hands back one whose
    role is neither "user" nor "admin", [Create] fails with the mapping
    error although the record is stored: the store is the one [Insert]
    left, and no verification is attempted. *)
Theorem Create_unknown_role_after_Insert
    s in_ w hash p1 id p2 t1 p3 t2 p4 ru st :
  CreateUserInput_validate in_ = None →
  bcrypt_GenerateFromPassword (inPassword in_) (proc w) = (inr hash, p1) →
  uuid_NewString p1 = (id, p2) →
  time_Now p2 = (t1, p3) →
  time_Now p3 = (t2, p4) →
  Insert (s_repo s) (storageUser in_ id hash t1 t2) (store w)
    = (inr (Some ru), st) →
  repository.Role ru ≠ "user" →
  repository.Role ru ≠ "admin" →
  Create s in_ w =
    (Fail (Errorf "could not parse storage user to domain model: " verb_s
             (ErrText ("invalid role: " +:+ repository.Role ru))),
     mkWorld st (transport w) p4).
Proof.
  intros Hv Hh Hid Ht1 Ht2 Hins Hnu Hna.
  rewrite (Create_reaches_Insert s in_ w _ _ _ _ _ _ _ _ _ _ Hv Hh Hid Ht1 Ht2 Hins).
  unfold after_Insert, newUserFromRepository. open_calls.
  rewrite !bool_decide_eq_false_2 by assumption. reflexivity.
Qed.

End CreatePaths.

Section LookupPaths.
Context {R T P : Type} `{Process P} `{Pure}.
Implicit Types (s : DefaultService R T) (w : World R T P).

(** X7.  An id that fails validation stops [FetchByID] and [Delete] before
    the repository is called; the world is untouched and the error keeps
    the validator's error as its cause. *)
Theorem invalid_id_touches_nothing s id w e :
  validate_ID id = Some e →
  FetchByID s id w =
    (Fail (Errorf "could not validate id: " verb_w e), w) ∧
  Delete s id w =
    (Fail (Errorf "could not validate id: " verb_w e), w) ∧
  ∀ v, errors_Is (Errorf "could not validate id: " verb_w e) v = errors_Is e v.
Proof.
  intros Hv. unfold FetchByID, Delete. open_calls. rewrite Hv.
  repeat split.
Qed.

(** X8.  [FetchByID] of a valid id: a repository error is returned
    hidden in a "could not select" error; no record is [errNotFound]; a
    record with role "user" or "admin" is returned field by field, with
    that role; a record with any other role is a mapping error.  Only the
    store may change, as [SelectByID] changes it. *)
Theorem FetchByID_outcomes s id w r st :
  validate_ID id = None →
  SelectByID (s_repo s) id (store w) = (r, st) →
  let w' := mkWorld st (transport w) (proc w) in
  match r with
  | inl err =>
      FetchByID s id w =
        (Fail (Errorf "could not select user by id: " verb_s err), w')
  | inr None => FetchByID s id w = (Fail errNotFound, w')
  | inr (Some ru) =>
      if bool_decide (repository.Role ru = "user")
         || bool_decide (repository.Role ru = "admin")
      then
        FetchByID s id w =
          (Ret (mkUser (repository.ID ru) (repository.Fullname ru)
                  (repository.Username ru) (repository.Birthdate ru)
                  (repository.Email ru) (repository.EmailVerified ru)
                  (repository.Role ru)
                  (repository.CreatedAt ru) (repository.UpdatedAt ru)), w')
      else
        FetchByID s id w =
          (Fail (Errorf "could not parse storage user to domain model: " verb_s
                   (ErrText ("invalid role: " +:+ repository.Role ru))), w')
  end.
Proof.
  intros Hv Hsel. cbn zeta.
  unfold FetchByID. open_calls. rewrite Hv. cbn. rewrite Hsel.
  destruct r as [err | [ru |]]; cbn; [reflexivity | | reflexivity].
  unfold newUserFromRepository.
  case_bool_decide as Hu; cbn.
  - rewrite Hu. reflexivity.
  - case_bool_decide as Ha; cbn; [rewrite Ha |]; reflexivity.
Qed.

(** X9.  [Delete] of a valid id returns what [DeleteByID] returns, an
    error hidden in a "could not delete" error; it never reads the clock or
    sends mail.  In no case does [Delete] fail with a package-level error
    itself: an id that has no record is not reported as [errNotFound]. *)
Theorem Delete_delegates s id w :
  (∀ r st,
     validate_ID id = None →
     DeleteByID (s_repo s) id (store w) = (r, st) →
     Delete s id w =
       (match r with
        | None => Ret tt
        | Some err => Fail (Errorf "could not delete user by id: " verb_s err)
        end, mkWorld st (transport w) (proc w))) ∧
  (∀ v : sentinel, (Delete s id w).1 ≠ Fail (ErrVar v)).
Proof.
  split.
  - intros r st Hv Hdel. unfold Delete. open_calls. rewrite Hv. cbn.
    rewrite Hdel. destruct r; reflexivity.
  - intros v. unfold Delete. open_calls.
    destruct (validate_ID id); cbn; [discriminate |].
    destruct (DeleteByID (s_repo s) id (store w)) as [[err |] st]; discriminate.
Qed.

End LookupPaths.

Section TokenPaths.
Context {R T P : Type} `{Process P} `{Pure}.
Implicit Types (s : DefaultService R T) (w : World R T P).

(** X10.  An email or a password that fails validation stops
    [GenerateToken] before the repository is asked; the world is untouched
    and the error hides its cause ([%s]). *)
Theorem GenerateToken_invalid_input_skips_lookup s email password w :
  validate_Email email ≠ None ∨ validate_Password password ≠ None →
  ∃ err, GenerateToken s email password w = (Fail err, w) ∧
         ∀ v, errors_Is err v = false.
Proof.
  intros Hbad. unfold GenerateToken. open_calls.
  destruct (validate_Email email) as [e |]; cbn.
  - eexists. split; reflexivity.
  - destruct (validate_Password password) as [e |]; cbn.
    + eexists. split; reflexivity.
    + destruct Hbad as [Hbad | Hbad]; congruence.
Qed.

(** X11.  The only errors of [GenerateToken] that [errors.Is] can tell
    apart are [errNotFound] and [errPasswordInvalid]; every other error,
    also [errRoleInvalid] from the token issue, is returned with its cause
    hidden. *)
Theorem GenerateToken_errors s email password w err w' :
  GenerateToken s email password w = (Fail err, w') →
  err = ErrVar errNotFound ∨ err = ErrVar errPasswordInvalid ∨
  ∀ v, errors_Is err v = false.
Proof.
  unfold GenerateToken. open_calls.
  destruct (validate_Email email); cbn;
    [intros [= <- _]; right; right; reflexivity |].
  destruct (validate_Password password); cbn;
    [intros [= <- _]; right; right; reflexivity |].
  destruct (SelectByEmail (s_repo s) email (store w)) as [[e | [u |]] st]; cbn.
  - intros [= <- _]. right; right; reflexivity.
  - destruct (bcrypt_CompareHashAndPassword _ _); cbn.
    + intros [= <- _]. right; left; reflexivity.
    + destruct (generateJWT s _ _ _) as [[tok | e |] w2]; intros [= <- _].
      right; right; reflexivity.
  - intros [= <- _]. left; reflexivity.
Qed.

(** X12.  With a valid email and password, a stored user and a matching
    hash, [GenerateToken] returns the token [generateJWT] issues for the
    stored id and role; when the issue fails (an id or a role it refuses),
    the error comes back with its cause hidden. *)
Theorem GenerateToken_issues_for_stored_user s email password w u st :
  validate_Email email = None →
  validate_Password password = None →
  SelectByEmail (s_repo s) email (store w) = (inr (Some u), st) →
  bcrypt_CompareHashAndPassword (repository.PasswordHash u) password = None →
  (∀ token w2,
     generateJWT s (repository.ID u) (repository.Role u)
       (mkWorld st (transport w) (proc w)) = (Ret token, w2) →
     GenerateToken s email password w = (Ret token, w2)) ∧
  (∀ e w2,
     generateJWT s (repository.ID u) (repository.Role u)
       (mkWorld st (transport w) (proc w)) = (Fail e, w2) →
     GenerateToken s email password w =
       (Fail (Errorf "could not generate jwt: " verb_s e), w2) ∧
     ∀ v, errors_Is (Errorf "could not generate jwt: " verb_s e) v = false).
Proof.
  intros He Hp Hsel Hcmp.
  assert (Hrun : GenerateToken s email password w =
            on_err (generateJWT s (repository.ID u) (repository.Role u))
                   (Errorf "could not generate jwt: " verb_s)
                   (mkWorld st (transport w) (proc w))).
  { unfold GenerateToken. open_calls. rewrite He, Hp. cbn. rewrite Hsel. cbn.
    rewrite Hcmp. reflexivity. }
  split.
  - intros token w2 Hg. rewrite Hrun. apply on_err_Ret. exact Hg.
  - intros e w2 Hg. split; [| reflexivity].
    rewrite Hrun. apply on_err_Fail. exact Hg.
Qed.

(** X13.  A token [generateJWT] issues after the first second of 1970 is
    signed HS512 with the service's key and says when it was issued and
    when it expires, in whole seconds: "exp" is "iat" plus 86400. *)
Theorem generateJWT_lifetime s userID r w token w1 t p :
  generateJWT s userID r w = (Ret token, w1) →
  time_Now (proc w) = (t, p) →
  (0 < Time_Unix t)%Z →
  ∃ claims,
    token = Compact HS512_header claims
              (HMAC "HS512" (jwtSigningKey s) (HS512_header, claims)) ∧
    claims !! "iat" = Some (JNumber (Time_Unix t)) ∧
    claims !! "exp" = Some (JNumber (Time_Unix t + 86400)).
Proof.
  intros Hgen Ht Hpos.
  destruct (generateJWT_Ret_inv _ _ _ _ _ _ Hgen) as (t0 & p0 & Ht0 & _ & Htok).
  rewrite Ht in Ht0. injection Ht0 as <- <-.
  cbn zeta in Htok. eexists. split; [exact Htok |].
  assert (Hexp : Time_Unix (Time_Add t (Hour * 24)) = (Time_Unix t + 86400)%Z).
  { unfold Time_Unix, Time_Add.
    change (Hour * 24)%Z with (86400 * Second)%Z.
    rewrite Z.div_add by discriminate. reflexivity. }
  unfold jwtClaim_json. cbn [claim_StandardClaims].
  rewrite StandardClaims_json_iat, StandardClaims_json_exp.
  cbn [jwt.IssuedAt jwt.ExpiresAt]. rewrite Hexp.
  rewrite !bool_decide_eq_false_2 by lia. split; reflexivity.
Qed.

(** What [jwt.Parse] with the service's key function returns without
    error: an HS512 token whose signature is the HMAC of its first two
    segments under the service's key, and whose dates the library
    accepted. *)
Lemma Parse_keyFunc_Ret_inv s token w jwtToken w1 :
  jwt.Parse token (keyFunc s) w = (Ret jwtToken, w1) →
  ∃ header claims t p,
    token = Compact header claims
              (HMAC "HS512" (jwtSigningKey s) (header, claims)) ∧
    header !! "alg" = Some (JString "HS512") ∧
    jwt.Claims jwtToken = claims ∧
    jwt.Valid jwtToken = true ∧
    time_Now (proc w) = (t, p) ∧
    w1 = mkWorld (store w) (transport w) p ∧
    (jwt.MapClaims_Valid claims (Time_Unix t)).2 = 0%N.
Proof.
  unfold jwt.Parse, jwt.ParseUnverified.
  destruct token as [| why | header claims signature]; try discriminate.
  destruct (header !! "alg") as [[alg | | | |] |] eqn:Halg; try discriminate.
  unfold jwt.GetSigningMethod.
  case_bool_decide as Hhmac.
  - unfold keyFunc.
    cbn [jwt.Method jwt.Alg jwtSigningMethod jwt.SigningMethodHS512].
    case_bool_decide as Hne; [discriminate |].
    assert (alg = "HS512") as -> by (destruct (decide (alg = "HS512")); tauto).
    open_calls. destruct (time_Now (proc w)) as [t p] eqn:Ht.
    cbn [jwt.Claims jwt.Header jwt.Signature jwt.Method jwt.Verify].
    destruct (decide (HMAC "HS512" (jwtSigningKey s) (header, claims)
                      = signature)) as [Hsig | Hsig].
    + rewrite (bool_decide_eq_true_2 (HMAC _ _ _ = _)) by exact Hsig.
      case_bool_decide as Hflags; [| discriminate].
      intros [= <- <-]. subst signature.
      exists header, claims, t, p. repeat split; assumption.
    + rewrite (bool_decide_eq_false_2 (HMAC _ _ _ = _)) by exact Hsig.
      case_bool_decide as Hflags; [| discriminate].
      cbn in Hflags. apply N.lor_eq_0_iff in Hflags as [_ Hf]. discriminate.
  - case_bool_decide; [| discriminate].
    unfold keyFunc. cbn. discriminate.
Qed.

(** [jwt.Parse] does not panic. *)
Lemma Parse_no_panic token keyFunc w w1 :
  jwt.Parse token keyFunc w ≠ (Panic, w1).
Proof.
  unfold jwt.Parse.
  destruct (jwt.ParseUnverified token) as [e | tk]; [discriminate |].
  destruct (keyFunc tk) as [[] | key]; try discriminate.
  open_calls. destruct (time_Now (proc w)).
  case_bool_decide; discriminate.
Qed.

(** X14.  What a response of [VerifyToken] proves: the token string is an
    HS512 token whose signature is the HMAC of its header and payload under
    the service's key; it carries a "user_id", the "role" of the response
    and an "exp" that is not before the time read; and the repository
    holds a record for that id, whose id and username the response has. *)
Theorem VerifyToken_sound s token w resp w' :
  VerifyToken s token w = (Ret resp, w') →
  ∃ header claims userID expiration ru t1 p1 t2 p2 st,
    token = Compact header claims
              (HMAC "HS512" (jwtSigningKey s) (header, claims)) ∧
    header !! "alg" = Some (JString "HS512") ∧
    claims !! "user_id" = Some (JString userID) ∧
    claims !! "role" = Some (JString (respRole resp)) ∧
    claims !! "exp" = Some (JNumber expiration) ∧
    time_Now (proc w) = (t1, p1) ∧
    time_Now p1 = (t2, p2) ∧
    (t2 ≤ time_Unix expiration 0)%Z ∧
    SelectByID (s_repo s) userID (store w) = (inr (Some ru), st) ∧
    respID resp = repository.ID ru ∧
    respUsername resp = repository.Username ru ∧
    w' = mkWorld st (transport w) p2.
Proof.
  intros Hv.
  assert (Hne : token ≠ Empty) by (intros ->; discriminate).
  assert (Hv' :
    (let* jwtToken := jwt.Parse token (keyFunc s)
                        orelse Errorf "could not parse token: " verb_s in
     let claims := jwt.Claims jwtToken in
     if negb (jwt.Valid jwtToken) then fail errTokenInvalid else
     match claims !! "user_id" with
     | Some (JString userID) =>
         match claims !! "role" with
         | Some (JString role) =>
             match claims !! "exp" with
             | Some (JNumber expiration) =>
                 let* t := now in
                 if Time_Before (time_Unix expiration 0) t
                 then fail errTokenExpired
                 else
                   let* storageUser :=
                     try_store (SelectByID (s_repo s) userID)
                       orelse Errorf "could not select user by id: " verb_s in
                   match storageUser with
                   | None => fail errNotFound
                   | Some storageUser =>
                       ret (mkVerifyTokenResponse
                              (repository.ID storageUser)
                              (repository.Username storageUser)
                              role)
                   end
             | _ => fail (ErrText "could not find expiration in token")
             end
         | _ => fail (ErrText "could not find role in token")
         end
     | _ => fail (ErrText "could not find user id in token")
     end) w = (Ret resp, w')).
  { destruct token; [congruence | exact Hv | exact Hv]. }
  clear Hv. revert Hv'. unfold bind at 1, on_err at 1.
  destruct (jwt.Parse token (keyFunc s) w) as [[tk | e |] w1] eqn:Hparse;
    [| discriminate | discriminate].
  destruct (Parse_keyFunc_Ret_inv _ _ _ _ _ Hparse)
    as (header & claims & t1 & p1 & -> & Halg & Hc & Hvalid & Ht1 & -> & _).
  rewrite Hvalid, Hc. cbn [negb].
  destruct (claims !! "user_id") as [[userID | | | |] |] eqn:Hid;
    try discriminate.
  destruct (claims !! "role") as [[role | | | |] |] eqn:Hrole;
    try discriminate.
  destruct (claims !! "exp") as [[| expiration | | |] |] eqn:Hexp;
    try discriminate.
  unfold now. open_calls. cbn [proc store transport].
  destruct (time_Now p1) as [t2 p2] eqn:Ht2.
  unfold Time_Before. case_bool_decide as Hbefore; [discriminate |].
  cbn [proc store transport].
  destruct (SelectByID (s_repo s) userID (store w)) as [[err | [ru |]] st] eqn:Hsel;
    cbn; try discriminate.
  intros [= <- <-].
  exists header, claims, userID, expiration, ru, t1, p1, t2, p2, st.
  repeat split; try assumption; try reflexivity. lia.
Qed.

(** X15.  An HS512 token whose signature is not the HMAC of its header and
    payload under the service's key is refused, whatever it claims: the
    error is the library's "signature is invalid", flagged as such, inside
    "could not parse token"; the repository is not asked. *)
Theorem VerifyToken_rejects_bad_signature s header claims signature w t p :
  header !! "alg" = Some (JString "HS512") →
  signature ≠ HMAC "HS512" (jwtSigningKey s) (header, claims) →
  time_Now (proc w) = (t, p) →
  ∃ flags,
    VerifyToken s (Compact header claims signature) w =
      (Fail (Errorf "could not parse token: " verb_s
               (ValidationError jwt.ErrSignatureInvalid flags)),
       mkWorld (store w) (transport w) p) ∧
    N.testbit flags 2 = true.
Proof.
  intros Halg Hsig Ht.
  exists (N.lor (jwt.MapClaims_Valid claims (Time_Unix t)).2
                jwt.ValidationErrorSignatureInvalid).
  split.
  - unfold VerifyToken. apply bind_Fail. apply on_err_Fail.
    unfold jwt.Parse, jwt.ParseUnverified.
    rewrite Halg, GetSigningMethod_HS512.
    unfold keyFunc.
    cbn [jwt.Method jwt.Alg jwtSigningMethod jwt.SigningMethodHS512].
    rewrite bool_decide_eq_false_2 by (intros Hne; apply Hne; reflexivity).
    open_calls. rewrite Ht.
    cbn [jwt.Claims jwt.Header jwt.Signature jwt.Method jwt.Verify].
    rewrite (bool_decide_eq_false_2 (HMAC _ _ _ = _)) by congruence.
    cbn [fst snd].
    rewrite bool_decide_eq_false_2; [reflexivity |].
    intros Hz. apply N.lor_eq_0_iff in Hz as [_ Hz]. discriminate.
  - rewrite N.lor_spec. apply orb_true_iff. right. reflexivity.
Qed.

(** X16.  [VerifyToken] does not panic and never fails with
    [errTokenInvalid]: of its errors [errors.Is] can tell apart only
    [errTokenEmpty], [errTokenExpired] and [errNotFound]. *)
Theorem VerifyToken_outcomes s token w :
  (VerifyToken s token w).1 ≠ Panic ∧
  (VerifyToken s token w).1 ≠ Fail errTokenInvalid ∧
  ∀ err, (VerifyToken s token w).1 = Fail err →
         err = ErrVar errTokenEmpty ∨ err = ErrVar errTokenExpired ∨
         err = ErrVar errNotFound ∨ ∀ v, errors_Is err v = false.
Proof.
  assert (Hall : ∀ err, (VerifyToken s token w).1 = Fail err →
            err = ErrVar errTokenEmpty ∨ err = ErrVar errTokenExpired ∨
            err = ErrVar errNotFound ∨ ∀ v, errors_Is err v = false).
  { intros err. destruct token as [| why | header claims signature].
    - intros [= <-]. left; reflexivity.
    - unfold VerifyToken, jwt.Parse. cbn. intros [= <-].
      do 3 right. reflexivity.
    - unfold VerifyToken. unfold bind at 1, on_err at 1.
      destruct (jwt.Parse _ (keyFunc s) w) as [[tk | e |] w1] eqn:Hparse.
      + destruct (Parse_keyFunc_Ret_inv _ _ _ _ _ Hparse)
          as (h & c & t1 & p1 & _ & _ & Hc & Hvalid & _ & _ & _).
        rewrite Hvalid, Hc. cbn [negb].
        destruct (c !! "user_id") as [[userID | | | |] |];
          try (intros [= <-]; do 3 right; reflexivity).
        destruct (c !! "role") as [[role | | | |] |];
          try (intros [= <-]; do 3 right; reflexivity).
        destruct (c !! "exp") as [[expiration | | | |] |];
          try (intros [= <-]; do 3 right; reflexivity).
        unfold now. open_calls. destruct (time_Now (proc w1)) as [t2 p2].
        destruct (Time_Before _ _);
          [intros [= <-]; right; left; reflexivity |].
        cbn [proc store transport].
        destruct (SelectByID (s_repo s) userID (store w1))
          as [[e | [ru |]] st]; cbn; intros [= <-].
        * do 3 right. reflexivity.
        * right; right; left. reflexivity.
      + intros [= <-]. do 3 right. reflexivity.
      + exfalso. exact (Parse_no_panic _ _ _ _ Hparse). }
  split; [| split; [| exact Hall]].
  - destruct token as [| why | header claims signature]; [discriminate | |].
    + unfold VerifyToken, jwt.Parse. cbn. discriminate.
    + unfold VerifyToken. unfold bind at 1, on_err at 1.
      destruct (jwt.Parse _ (keyFunc s) w) as [[tk | e |] w1] eqn:Hparse;
        [| discriminate | exact (λ _, Parse_no_panic _ _ _ _ Hparse)].
      destruct (jwt.Valid tk); cbn [negb]; [| discriminate].
      destruct (jwt.Claims tk !! "user_id") as [[userID | | | |] |];
        try discriminate.
      destruct (jwt.Claims tk !! "role") as [[role | | | |] |];
        try discriminate.
      destruct (jwt.Claims tk !! "exp") as [[expiration | | | |] |];
        try discriminate.
      unfold now. open_calls. destruct (time_Now (proc w1)) as [t2 p2].
      destruct (Time_Before _ _); [discriminate |].
      cbn [proc store transport].
      destruct (SelectByID (s_repo s) userID (store w1))
        as [[e | [ru |]] st]; discriminate.
  - intros Hinv. destruct (Hall _ Hinv) as [Hq | [Hq | [Hq | Hq]]];
      try discriminate.
    specialize (Hq errTokenInvalid). discriminate.
Qed.

(** X17.  A token that parses but lacks a claim, or has it with another
    JSON type, is refused with an error that names the claim, in the order
    user id, role, expiration; the repository is not asked. *)
Theorem VerifyToken_missing_claim s token w jwtToken w1 :
  jwt.Parse token (keyFunc s) w = (Ret jwtToken, w1) →
  let claims := jwt.Claims jwtToken in
  ((∀ v, claims !! "user_id" ≠ Some (JString v)) →
   VerifyToken s token w =
     (Fail (ErrText "could not find user id in token"), w1)) ∧
  (∀ userID,
     claims !! "user_id" = Some (JString userID) →
     (∀ v, claims !! "role" ≠ Some (JString v)) →
     VerifyToken s token w =
       (Fail (ErrText "could not find role in token"), w1)) ∧
  (∀ userID role,
     claims !! "user_id" = Some (JString userID) →
     claims !! "role" = Some (JString role) →
     (∀ n, claims !! "exp" ≠ Some (JNumber n)) →
     VerifyToken s token w =
       (Fail (ErrText "could not find expiration in token"), w1)).
Proof.
  intros Hparse. cbn zeta.
  destruct (Parse_Ret_inv _ _ _ _ _ Hparse) as (Hvalid & Hne & _).
  assert (Hrun : ∀ k,
    VerifyToken s token w =
      (if negb (jwt.Valid jwtToken) then fail errTokenInvalid else k) w1 →
    VerifyToken s token w = k w1).
  { intros k ->. rewrite Hvalid. reflexivity. }
  repeat split.
  - intros Hno. apply Hrun.
    destruct token as [| why | header claims signature]; [congruence | |];
      unfold VerifyToken;
      rewrite (bind_Ret _ _ w jwtToken w1) by (apply on_err_Ret; exact Hparse);
      rewrite Hvalid; cbn [negb];
      destruct (jwt.Claims jwtToken !! "user_id") as [[v | | | |] |];
      first [reflexivity | exfalso; exact (Hno v eq_refl)].
  - intros userID Hid Hno. apply Hrun.
    destruct token as [| why | header claims signature]; [congruence | |];
      unfold VerifyToken;
      rewrite (bind_Ret _ _ w jwtToken w1) by (apply on_err_Ret; exact Hparse);
      rewrite Hvalid, Hid; cbn [negb];
      destruct (jwt.Claims jwtToken !! "role") as [[v | | | |] |];
      first [reflexivity | exfalso; exact (Hno v eq_refl)].
  - intros userID role Hid Hrole Hno. apply Hrun.
    destruct token as [| why | header claims signature]; [congruence | |];
      unfold VerifyToken;
      rewrite (bind_Ret _ _ w jwtToken w1) by (apply on_err_Ret; exact Hparse);
      rewrite Hvalid, Hid, Hrole; cbn [negb];
      destruct (jwt.Claims jwtToken !! "exp") as [[| n | | |] |];
      first [reflexivity | exfalso; exact (Hno n eq_refl)].
Qed.

End TokenPaths.

Section VerificationPaths.
Context {R T P : Type} `{Process P} `{Pure}.
Implicit Types (s : DefaultService R T) (w : World R T P).

(** X18.  [randString] returns: for every length and every state of the
    random source it yields a string of that length made of lowercase
    letters and digits (no index leaves [chars]), and it touches neither
    the store nor the transport. *)
Theorem randString_draws (length : nat) w :
  ∃ code w',
    randString length w = (Ret code, w') ∧
    String.length code = length ∧
    forallb lower_alnum (list_ascii_of_string code) = true ∧
    store w' = store w ∧ transport w' = transport w.
Proof.
  destruct (randString_returns length w) as (code & p & Hr & Hlen & Hall).
  exists code, (mkWorld (store w) (transport w) p).
  repeat split; assumption.
Qed.

(** X19.  When the repository rejects the verification record, nothing is
    handed to the mailer: [SendEmailVerification] fails with a "could not
    insert" error and the transport is as it was, with or without a mailer
    configured. *)
Theorem SendEmailVerification_insert_failure_sends_nothing
    s userID username to w code p1 t1 p2 t2 p3 err st :
  randString 6 w = (Ret code, mkWorld (store w) (transport w) p1) →
  time_Now p1 = (t1, p2) →
  time_Now p2 = (t2, p3) →
  InsertEmailVerification (s_repo s)
    (repository.mkEmailVerification code userID t1 (Time_Add t2 (Hour * 24)))
    (store w) = (Some err, st) →
  SendEmailVerification s userID username to w =
    (Fail (Errorf "could not insert email verification: " verb_s err),
     mkWorld st (transport w) p3).
Proof.
  intros Hcode Ht1 Ht2 Hins.
  rewrite (SendEmailVerification_runs s userID username to w _ _ _ _ _ _ Hcode Ht1 Ht2).
  rewrite Hins. reflexivity.
Qed.

(** X20.  On a service built without a mailer, a direct call of
    [SendEmailVerification] panics at the nil [emailer], after the
    repository has accepted the record: the store is the one
    [InsertEmailVerification] left. *)
Theorem SendEmailVerification_without_mailer_panics
    s userID username to w code p1 t1 p2 t2 p3 st :
  s_emailer s = None →
  randString 6 w = (Ret code, mkWorld (store w) (transport w) p1) →
  time_Now p1 = (t1, p2) →
  time_Now p2 = (t2, p3) →
  InsertEmailVerification (s_repo s)
    (repository.mkEmailVerification code userID t1 (Time_Add t2 (Hour * 24)))
    (store w) = (None, st) →
  SendEmailVerification s userID username to w =
    (Panic, mkWorld st (transport w) p3).
Proof.
  intros Hem Hcode Ht1 Ht2 Hins.
  rewrite (SendEmailVerification_runs s userID username to w _ _ _ _ _ _ Hcode Ht1 Ht2).
  rewrite Hins, Hem. reflexivity.
Qed.

(** X21.  When the repository accepts the record and the mailer accepts
    the message, [SendEmailVerification] returns nil; the message went to
    [to] under the sender's name, and the link in it is [path.Join] of the
    endpoint and the very code that was stored. *)
Theorem SendEmailVerification_delivers_stored_code
    s em userID username to w code p1 t1 p2 t2 p3 st tr :
  s_emailer s = Some em →
  randString 6 w = (Ret code, mkWorld (store w) (transport w) p1) →
  time_Now p1 = (t1, p2) →
  time_Now p2 = (t2, p3) →
  InsertEmailVerification (s_repo s)
    (repository.mkEmailVerification code userID t1 (Time_Add t2 (Hour * 24)))
    (store w) = (None, st) →
  Send em (emailVerificationSenderName s) to
    ("From: " +:+ emailVerificationSenderAddr s +:+ CRLF +:+
     "To: " +:+ to +:+ CRLF +:+
     "Subject: " +:+ emailVerificationSenderName s +:+
     " Email Verification" +:+ CRLF +:+ CRLF +:+
     "Please click the following link to verify your email address: " +:+
     path_Join (emailVerificationEndpoint s) code +:+ CRLF)
    (transport w) = (None, tr) →
  SendEmailVerification s userID username to w =
    (Ret tt, mkWorld st tr p3).
Proof.
  intros Hem Hcode Ht1 Ht2 Hins Hsend.
  rewrite (SendEmailVerification_runs s userID username to w _ _ _ _ _ _ Hcode Ht1 Ht2).
  rewrite Hins, Hem. unfold verification_body. rewrite Hsend. reflexivity.
Qed.

End VerificationPaths.

Section Options.
Context {R T : Type}.

(** Options made by [WithEmailVerification] leave the signing key and the
    repository of a service as they are. *)
Lemma options_keep_key_and_repo
    (opts : list (DefaultService R T → DefaultService R T)) service :
  Forall (λ opt, ∃ n a e em, opt = WithEmailVerification n a e em) opts →
  jwtSigningKey (foldl (λ service opt, opt service) service opts)
    = jwtSigningKey service ∧
  s_repo (foldl (λ service opt, opt service) service opts) = s_repo service.
Proof.
  intros Hall. revert service.
  induction Hall as [| opt opts (n & a & e & em & ->) _ IH]; intros service.
  - split; reflexivity.
  - cbn [foldl]. destruct (IH (WithEmailVerification n a e em service)) as [-> ->].
    split; reflexivity.
Qed.

(** X22.  [New] applies its options in order: after any number of
    [WithEmailVerification] options the last one decides the mailer, the
    sender and the endpoint, and the signing key and the repository are
    the ones [New] was given. *)
Theorem New_last_option_wins jwtSigningKey (rp : repo R)
    (opts : list (DefaultService R T → DefaultService R T)) n a e em :
  Forall (λ opt, ∃ n a e em, opt = WithEmailVerification n a e em) opts →
  New jwtSigningKey rp (opts ++ [WithEmailVerification n a e em])
    = mkService jwtSigningKey n a e em rp.
Proof.
  intros Hall. unfold New. rewrite foldl_app. cbn [foldl].
  unfold WithEmailVerification at 1.
  destruct (options_keep_key_and_repo opts
              (mkService jwtSigningKey "" "" "" None rp) Hall) as [-> ->].
  reflexivity.
Qed.

End Options.

(** ** More runs on the in-memory world *)

Section MoreRuns.
Import InMemory.

(** An input without an address. *)
Lemma Create_invalid_input_touches_nothing_witness :
  Create svc no_email_in w0 =
    (Fail (Errorf "could not validate create user input: " verb_w
             (ErrText "email is empty")), w0) ∧
  ∀ v, errors_Is (Errorf "could not validate create user input: " verb_w
                    (ErrText "email is empty")) v
       = errors_Is (ErrText "email is empty") v.
Proof.
  apply Create_invalid_input_touches_nothing. reflexivity.
Defined.

(** A password of 73 bytes. *)
Lemma Create_hash_failure_skips_Insert_witness :
  Create svc long_password_in w0 =
    (Fail (Errorf "could not hash password: " verb_s
             (ErrText "bcrypt: password length exceeds 72 bytes")), w0) ∧
  ∀ v, errors_Is (Errorf "could not hash password: " verb_s
                    (ErrText "bcrypt: password length exceeds 72 bytes")) v
       = false.
Proof.
  eapply (Create_hash_failure_skips_Insert svc long_password_in w0); run_each.
Defined.

(** A second account for Jane's address fails and sends nothing. *)
Lemma Create_failure_sends_no_mail_witness :
  transport (Create svc jane_again w0).2 = transport w0.
Proof.
  eapply (Create_failure_sends_no_mail svc jane_again w0 errAlreadyExists).
  run_each.
Defined.

Lemma Create_errors_witness :
  ErrVar errAlreadyExists = ErrVar errAlreadyExists ∨
  (∃ e, CreateUserInput_validate jane_again = Some e ∧
        ∀ v, errors_Is errAlreadyExists v = errors_Is e v) ∨
  (∀ v, errors_Is errAlreadyExists v = false).
Proof.
  eapply (Create_errors svc jane_again w0 errAlreadyExists). run_each.
Defined.

(** Joe signs up with the mail transport up: one record for his id is
    stored and one message goes to his address. *)
Lemma Create_sends_verification_for_created_user_witness :
  ∃ w2,
    Create svc joe_in w0 = (Ret joe, w2) ∧
    verifications (store w2) =
      [repository.mkEmailVerification "g1ir8t" (ID joe)
         1700000100000000002 1700086500000000003] ∧
    outbox (transport w2) =
      [("stdservices", "joe@example.com",
        verification_body svc "joe@example.com" "g1ir8t")].
Proof.
  eexists. split.
  - eapply (Create_sends_verification_for_created_user svc memEmailer joe_in w0);
      run_each.
  - split; vm_compute; reflexivity.
Defined.

(** The repository answers with a role the service does not know. *)
Lemma Create_unknown_role_after_Insert_witness :
  ∃ st,
    Create svc_root joe_in w0 =
      (Fail (Errorf "could not parse storage user to domain model: " verb_s
               (ErrText "invalid role: root")),
       mkWorld st (transport w0) (mkProc 1700000100000000002 1 [] 42 [])) ∧
    repository.ID <$> users st = [repository.ID jane; ID joe].
Proof.
  eexists. split.
  - eapply (Create_unknown_role_after_Insert svc_root joe_in w0)
      with (ru := repository.mkUser (ID joe) "Joe Bloggs" "joe" 0
                    "joe@example.com" false "$2a$10$hunter2hunter2" "root"
                    1700000100000000000 1700000100000000001);
      [run_each .. | |]; vm_compute; discriminate.
  - reflexivity.
Defined.

(** The empty id. *)
Lemma invalid_id_touches_nothing_witness :
  FetchByID svc "" w0 =
    (Fail (Errorf "could not validate id: " verb_w (ErrText "id is empty")), w0) ∧
  Delete svc "" w0 =
    (Fail (Errorf "could not validate id: " verb_w (ErrText "id is empty")), w0) ∧
  ∀ v, errors_Is (Errorf "could not validate id: " verb_w
                    (ErrText "id is empty")) v
       = errors_Is (ErrText "id is empty") v.
Proof.
  apply invalid_id_touches_nothing. reflexivity.
Defined.

(** Jane is found, Rudi's role is not known, Joe is not stored. *)
Lemma FetchByID_outcomes_witness :
  FetchByID svc (repository.ID jane) w_rudi =
    (Ret (mkUser (repository.ID jane) "Jane Doe" "janedoe" 631152000000000000
                 "jane@example.com" false RoleUser
                 1700000000000000000 1700000000000000000), w_rudi) ∧
  FetchByID svc (repository.ID rudi) w_rudi =
    (Fail (Errorf "could not parse storage user to domain model: " verb_s
             (ErrText "invalid role: root")), w_rudi) ∧
  FetchByID svc (ID joe) w_rudi = (Fail errNotFound, w_rudi).
Proof.
  split; [| split].
  - exact (FetchByID_outcomes svc (repository.ID jane) w_rudi
             (inr (Some jane)) (store w_rudi) eq_refl eq_refl).
  - exact (FetchByID_outcomes svc (repository.ID rudi) w_rudi
             (inr (Some rudi)) (store w_rudi) eq_refl eq_refl).
  - exact (FetchByID_outcomes svc (ID joe) w_rudi
             (inr None) (store w_rudi) eq_refl eq_refl).
Defined.

(** Jane is deleted; an id nobody has is deleted just as well. *)
Lemma Delete_delegates_witness :
  Delete svc (repository.ID jane) w0 =
    (Ret tt, mkWorld (mkStore [] []) (transport w0) (proc w0)) ∧
  Delete svc (ID joe) w0 = (Ret tt, w0).
Proof.
  split.
  - eapply (proj1 (Delete_delegates svc (repository.ID jane) w0) None); run_each.
  - eapply (proj1 (Delete_delegates svc (ID joe) w0) None); run_each.
Defined.


(** An empty address, and a password too short. *)
Lemma GenerateToken_invalid_input_skips_lookup_witness :
  (∃ err, GenerateToken svc "" "Str0ngPass!" w0 = (Fail err, w0) ∧
          ∀ v, errors_Is err v = false) ∧
  (∃ err, GenerateToken svc "jane@example.com" "short" w0 = (Fail err, w0) ∧
          ∀ v, errors_Is err v = false).
Proof.
  split; apply GenerateToken_invalid_input_skips_lookup;
    [left | right]; vm_compute; discriminate.
Defined.

(** A wrong password for Jane. *)
Lemma GenerateToken_errors_witness :
  ErrVar errPasswordInvalid = ErrVar errNotFound ∨
  ErrVar errPasswordInvalid = ErrVar errPasswordInvalid ∨
  ∀ v, errors_Is errPasswordInvalid v = false.
Proof.
  eapply (GenerateToken_errors svc "jane@example.com" "Str0ngPass?" w0
            errPasswordInvalid).
  run_each.
Defined.

(** Jane logs in and gets the token issued for her id and role; Rudi logs
    in and his role is refused, under an error that hides
    [errRoleInvalid]. *)
Lemma GenerateToken_issues_for_stored_user_witness :
  (∃ token w2,
     generateJWT svc (repository.ID jane) (repository.Role jane) w0
       = (Ret token, w2) ∧
     GenerateToken svc "jane@example.com" "Str0ngPass!" w0 = (Ret token, w2)) ∧
  GenerateToken svc "rudi@example.com" "R00tPassword" w_rudi =
    (Fail (Errorf "could not generate jwt: " verb_s errRoleInvalid), w_rudi) ∧
  errors_Is (Errorf "could not generate jwt: " verb_s errRoleInvalid)
            errRoleInvalid = false.
Proof.
  edestruct (GenerateToken_issues_for_stored_user
               svc "jane@example.com" "Str0ngPass!" w0 jane)
    as [Hjane _]; [run_each .. |].
  edestruct (GenerateToken_issues_for_stored_user
               svc "rudi@example.com" "R00tPassword" w_rudi rudi)
    as [_ Hrudi]; [run_each .. |].
  split; [| split].
  - eexists _, _. split; [run_each |]. apply Hjane. run_each.
  - apply (Hrudi errRoleInvalid w_rudi). run_each.
  - reflexivity.
Defined.

(** A token issued at 1700000100 s expires at 1700086500 s. *)
Lemma generateJWT_lifetime_witness :
  ∃ token w1 claims,
    generateJWT svc (repository.ID jane) "user" w0 = (Ret token, w1) ∧
    token = Compact HS512_header claims
              (HMAC "HS512" "secret" (HS512_header, claims)) ∧
    claims !! "iat" = Some (JNumber 1700000100) ∧
    claims !! "exp" = Some (JNumber 1700086500).
Proof.
  eexists _, _.
  edestruct (generateJWT_lifetime svc (repository.ID jane) "user" w0)
    as (claims & Htok & Hiat & Hexp); [run_each .. |].
  exists claims. split; [run_each |]. split; [exact Htok |].
  split; [exact Hiat | exact Hexp].
Defined.

(** The response for a signed token that names Jane as "admin". *)
Lemma VerifyToken_sound_witness :
  ∃ header claims userID expiration ru t1 p1 t2 p2 st,
    signed (claims_for_jane "admin" 1700090000) =
      Compact header claims (HMAC "HS512" "secret" (header, claims)) ∧
    header !! "alg" = Some (JString "HS512") ∧
    claims !! "user_id" = Some (JString userID) ∧
    claims !! "role" = Some (JString "admin") ∧
    claims !! "exp" = Some (JNumber expiration) ∧
    time_Now (proc w0) = (t1, p1) ∧
    time_Now p1 = (t2, p2) ∧
    (t2 ≤ time_Unix expiration 0)%Z ∧
    SelectByID memRepo userID (store w0) = (inr (Some ru), st) ∧
    repository.ID jane = repository.ID ru ∧
    "janedoe" = repository.Username ru ∧
    mkWorld (store w0) (transport w0)
      (mkProc 1700000100000000002 1
              ["16fd2706-8baf-433b-82eb-8c7fada847da"] 42 [])
      = mkWorld st (transport w0) p2.
Proof.
  eapply (VerifyToken_sound svc (signed (claims_for_jane "admin" 1700090000)) w0
            (mkVerifyTokenResponse (repository.ID jane) "janedoe" "admin")).
  run_each.
Defined.

(** A forged signature over Jane's claims. *)
Lemma VerifyToken_rejects_bad_signature_witness :
  ∃ flags,
    VerifyToken svc (forged (claims_for_jane "admin" 1700090000)) w0 =
      (Fail (Errorf "could not parse token: " verb_s
               (ValidationError jwt.ErrSignatureInvalid flags)),
       mkWorld (store w0) (transport w0)
         (mkProc 1700000100000000001 1
                 ["16fd2706-8baf-433b-82eb-8c7fada847da"] 42 [])) ∧
    N.testbit flags 2 = true.
Proof.
  eapply (VerifyToken_rejects_bad_signature svc HS512_header
            (claims_for_jane "admin" 1700090000) "forged" w0);
    [run_each | vm_compute; discriminate | run_each].
Defined.

(** A signed token without a role. *)
Lemma VerifyToken_missing_claim_witness :
  VerifyToken svc (signed claims_without_role) w0 =
    (Fail (ErrText "could not find role in token"),
     mkWorld (store w0) (transport w0)
       (mkProc 1700000100000000001 1
               ["16fd2706-8baf-433b-82eb-8c7fada847da"] 42 [])).
Proof.
  edestruct (VerifyToken_missing_claim svc (signed claims_without_role) w0)
    as (_ & Hrole & _); [run_each |].
  eapply Hrole; [run_each | intros v; vm_compute; discriminate].
Defined.

(** The repository is out of reach: nothing reaches the outbox. *)
Lemma SendEmailVerification_insert_failure_sends_nothing_witness :
  ∃ p3,
    SendEmailVerification svc_down "u1" "janedoe" "jane@example.com" w0 =
      (Fail (Errorf "could not insert email verification: " verb_s
               (ErrText "connection refused")),
       mkWorld (store w0) (transport w0) p3) ∧
    outbox (transport w0) = [].
Proof.
  eexists. split; [| reflexivity].
  eapply (SendEmailVerification_insert_failure_sends_nothing svc_down);
    run_each.
Defined.

(** A service without a mailer: the record is stored, then the call
    panics. *)
Lemma SendEmailVerification_without_mailer_panics_witness :
  ∃ st p3,
    SendEmailVerification svc_no_mail "u1" "janedoe" "jane@example.com" w0 =
      (Panic, mkWorld st (transport w0) p3) ∧
    verifications st =
      [repository.mkEmailVerification "g1ir8t" "u1" 1700000100000000000
                                     1700086500000000001].
Proof.
  eexists _, _. split.
  - eapply (SendEmailVerification_without_mailer_panics svc_no_mail); run_each.
  - reflexivity.
Defined.

(** The transport is up: the record is stored and the message, with the
    same code in its link, is in the outbox. *)
Lemma SendEmailVerification_delivers_stored_code_witness :
  ∃ st tr p3,
    SendEmailVerification svc "u1" "janedoe" "jane@example.com" w0 =
      (Ret tt, mkWorld st tr p3) ∧
    repository.Code <$> verifications st = ["g1ir8t"] ∧
    outbox tr =
      [("stdservices", "jane@example.com",
        verification_body svc "jane@example.com" "g1ir8t")].
Proof.
  eexists _, _, _. split; [| split].
  - eapply (SendEmailVerification_delivers_stored_code svc memEmailer); run_each.
  - reflexivity.
  - vm_compute. reflexivity.
Defined.

(** Two options: the second decides. *)
Lemma New_last_option_wins_witness :
  New "secret" memRepo
      ([WithEmailVerification "old" "old@example.com" "/old" None] ++
       [WithEmailVerification "stdservices" "noreply@example.com" "/verify"
                              (Some memEmailer)])
    = mkService "secret" "stdservices" "noreply@example.com" "/verify"
                (Some memEmailer) memRepo.
Proof.
  apply New_last_option_wins.
  constructor; [| constructor]. eexists _, _, _, _. reflexivity.
Defined.

End MoreRuns.
